(** * django-newsletter: subscription state machine, template lookup and
    the admin import workflow

    A shallow embedding of [newsletter/models.py] and [newsletter/admin.py].
    Python methods that mutate [self] and touch the database become
    computations in a state-and-exception monad whose state is the receiver
    paired with the world (clock, subscription table, debug log, outbox,
    template store). *)

From stdpp Require Import base option list strings gmap pretty.
From Stdlib Require Import ZArith Ascii.

Local Open Scope Z_scope.
Local Open Scope string_scope.

(** ** Exceptions and the execution monad *)

Inductive Exception :=
| AssertionError (msg : string)
| NameError (name : string)
| TemplateDoesNotExist (names : list string)
| KeyError (key : string)
| DoesNotExist
| MultipleObjectsReturned.

Inductive Outcome (A : Type) :=
| Raise (e : Exception)
| Return (a : A).
Arguments Raise {A} e.
Arguments Return {A} a.

(** A Python call: runs on a state, ends by returning or raising, and keeps
    whatever it wrote to the state before raising. *)
Definition Exec (S A : Type) : Type := S → Outcome A * S.

Global Instance Exec_ret {S} : MRet (Exec S) := λ A a s, (Return a, s).

Global Instance Exec_bind {S} : MBind (Exec S) := λ A B f m s,
  match m s with
  | (Return a, s') => f a s'
  | (Raise e, s') => (Raise e, s')
  end.

Definition raise {S A} (e : Exception) : Exec S A := λ s, (Raise e, s).

(** [assert cond, msg] *)
Definition assert_ {S} (cond : bool) (msg : string) : Exec S unit :=
  if cond then mret () else raise (AssertionError msg).

(** [try: body finally: cleanup] -- the cleanup runs on both exits and the
    body's outcome is kept unless the cleanup itself raises. *)
Definition try_finally {S A} (body : Exec S A) (cleanup : Exec S unit)
  : Exec S A := λ s,
  match body s with
  | (r, s') =>
      match cleanup s' with
      | (Return _, s'') => (r, s'')
      | (Raise e, s'') => (Raise e, s'')
      end
  end.

(** [for x in xs: body(x)] *)
Fixpoint for_each {S A} (xs : list A) (body : A → Exec S unit) : Exec S unit :=
  match xs with
  | [] => mret ()
  | x :: xs' => body x ;; for_each xs' body
  end.

(** ** Data model *)

(** [datetime] values, as ticks of the clock that [now()] reads. *)
Definition Time : Type := Z.

Record User := mkUser {
  user_pk : Z;
  full_name : string;
  user_email : string
}.

Record Newsletter := mkNewsletter {
  newsletter_pk : Z;
  title : string;
  slug : string;
  newsletter_email : string;
  sender : string;
  visible : bool;
  send_html : bool
}.

Record Subscription := mkSubscription {
  pk : option Z;
  user : option User;
  name_field : option string;
  email_field : option string;
  ip : option string;
  newsletter : Newsletter;
  create_date : Time;
  activation_code : string;
  subscribed : bool;
  subscribe_date : option Time;
  unsubscribed : bool;
  unsubscribe_date : option Time
}.

Global Instance User_eq_dec : EqDecision User.
Proof. solve_decision. Defined.
Global Instance Newsletter_eq_dec : EqDecision Newsletter.
Proof. solve_decision. Defined.
Global Instance Subscription_eq_dec : EqDecision Subscription.
Proof. solve_decision. Defined.

(** Attribute assignments [self.f = v]. *)
Definition set_pk (v : option Z) (s : Subscription) : Subscription :=
  mkSubscription v (user s) (name_field s) (email_field s) (ip s)
    (newsletter s) (create_date s) (activation_code s)
    (subscribed s) (subscribe_date s) (unsubscribed s) (unsubscribe_date s).

Definition set_subscribed (v : bool) (s : Subscription) : Subscription :=
  mkSubscription (pk s) (user s) (name_field s) (email_field s) (ip s)
    (newsletter s) (create_date s) (activation_code s)
    v (subscribe_date s) (unsubscribed s) (unsubscribe_date s).

Definition set_subscribe_date (v : option Time) (s : Subscription)
  : Subscription :=
  mkSubscription (pk s) (user s) (name_field s) (email_field s) (ip s)
    (newsletter s) (create_date s) (activation_code s)
    (subscribed s) v (unsubscribed s) (unsubscribe_date s).

Definition set_unsubscribed (v : bool) (s : Subscription) : Subscription :=
  mkSubscription (pk s) (user s) (name_field s) (email_field s) (ip s)
    (newsletter s) (create_date s) (activation_code s)
    (subscribed s) (subscribe_date s) v (unsubscribe_date s).

Definition set_unsubscribe_date (v : option Time) (s : Subscription)
  : Subscription :=
  mkSubscription (pk s) (user s) (name_field s) (email_field s) (ip s)
    (newsletter s) (create_date s) (activation_code s)
    (subscribed s) (subscribe_date s) (unsubscribed s) v.

(** Python truth values of the attributes that [save] tests. *)
Definition truthy_str (o : option string) : bool :=
  match o with
  | Some s => negb (bool_decide (s = ""))
  | None => false
  end.

Definition truthy_obj {A} (o : option A) : bool :=
  match o with Some _ => true | None => false end.

Definition truthy_int (o : option Z) : bool :=
  match o with
  | Some k => negb (bool_decide (k = 0))
  | None => false
  end.

(** ** The world *)

Record Template := mkTemplate {
  template_name : string;
  template_source : string
}.

Record EmailMessage := mkEmailMessage {
  msg_subject : string;
  msg_body : string;
  msg_from_email : string;
  msg_to : list (option string);
  msg_alternatives : list (string * string)
}.

Inductive LogRecord :=
| LogSubscribing (s : Subscription)
| LogUnsubscribing (s : Subscription)
| LogUpdated (s : Subscription) (action : string)
| LogConfirming (addresses : list (string * Subscription))
| LogActivationSent (action : string) (s : Subscription).

Record Site := mkSite {
  domain : string;
  site_name : string
}.

(** [django.conf.settings], the two entries the module reads. *)
Record Settings := mkSettings {
  STATIC_URL : string;
  MEDIA_URL : string
}.

Record World := mkWorld {
  clock : Time;
  rows : list Subscription;
  log : list LogRecord;
  outbox : list EmailMessage;
  templates : gmap string string;
  current_site : Site;
  settings : Settings
}.

Definition set_rows (v : list Subscription) (w : World) : World :=
  mkWorld (clock w) v (log w) (outbox w) (templates w)
    (current_site w) (settings w).

Definition set_log (v : list LogRecord) (w : World) : World :=
  mkWorld (clock w) (rows w) v (outbox w) (templates w)
    (current_site w) (settings w).

Definition set_outbox (v : list EmailMessage) (w : World) : World :=
  mkWorld (clock w) (rows w) (log w) v (templates w)
    (current_site w) (settings w).

Definition set_clock (v : Time) (w : World) : World :=
  mkWorld v (rows w) (log w) (outbox w) (templates w)
    (current_site w) (settings w).

Section Receiver.
(** Computations on a receiver of type [X] (the [self] of a method, or the
    [request] of a view) and the world. *)
Context {X : Type}.

Definition get_self : Exec (X * World) X := λ s, (Return s.1, s).

Definition modify_self (f : X → X) : Exec (X * World) unit :=
  λ s, (Return (), (f s.1, s.2)).

Definition get_world : Exec (X * World) World := λ s, (Return s.2, s).

Definition modify_world (f : World → World) : Exec (X * World) unit :=
  λ s, (Return (), (s.1, f s.2)).

(** [django.utils.timezone.now()] *)
Definition now : Exec (X * World) Time :=
  w ← get_world; mret (clock w).

(** [logger.debug(...)] *)
Definition logger_debug (r : LogRecord) : Exec (X * World) unit :=
  modify_world (λ w, set_log (log w ++ [r]) w).
End Receiver.

(** Calling a method of another object [o]: the method runs with [o] as its
    receiver on the caller's world. *)
Definition call {X Y A} (o : Y) (m : Exec (Y * World) A)
  : Exec (X * World) (A * Y) := λ s,
  match m (o, s.2) with
  | (Return a, (o', w')) => (Return (a, o'), (s.1, w'))
  | (Raise e, (_, w')) => (Raise e, (s.1, w'))
  end.

(** ** The object-relational mapper

    The table is the list of stored rows.  [Subscription.objects] queries and
    the base class's [save] belong to Django and are modelled as Django
    documents them: [filter(pk=k)] selects the rows whose key is [k], [get]
    returns the single match and raises otherwise, and [Model.save] updates
    the rows carrying the instance's key, or inserts the instance when it has
    no key or none matches.  Database constraint failures are not modelled. *)

Module ORM.

Definition filter_pk (k : Z) (tbl : list Subscription) : list Subscription :=
  filter (λ r, pk r = Some k) tbl.

(** [Subscription.objects.filter(pk=k).count()] *)
Definition count {X} (k : Z) : Exec (X * World) nat :=
  w ← get_world; mret (length (filter_pk k (rows w))).

(** [Subscription.objects.get(pk=k)] *)
Definition get {X} (k : Z) : Exec (X * World) Subscription :=
  w ← get_world;
  match filter_pk k (rows w) with
  | [] => raise DoesNotExist
  | [r] => mret r
  | _ => raise MultipleObjectsReturned
  end.

(** The key an auto-increment column hands out next. *)
Definition next_pk (tbl : list Subscription) : Z :=
  1 + foldr (λ r acc, Z.max (default 0 (pk r)) acc) 0 tbl.

Definition update_rows (k : Z) (self : Subscription)
    (tbl : list Subscription) : list Subscription :=
  (λ r, if decide (pk r = Some k) then self else r) <$> tbl.

(** [models.Model.save(self)] *)
Definition Model_save : Exec (Subscription * World) unit :=
  self ← get_self;
  w ← get_world;
  match pk self with
  | Some k =>
      if decide (filter_pk k (rows w) = [])
      then modify_world (set_rows (rows w ++ [self]))
      else modify_world (set_rows (update_rows k self (rows w)))
  | None =>
      let k := next_pk (rows w) in
      modify_self (set_pk (Some k)) ;;
      self ← get_self;
      modify_world (set_rows (rows w ++ [self]))
  end.

(** [queryset.update(subscribed=v)]: one UPDATE statement over the selected
    rows; it returns the number of rows matched and calls no model method. *)
Definition queryset_update_subscribed {X} (selected : Subscription → bool)
    (v : bool) : Exec (X * World) nat :=
  w ← get_world;
  modify_world (set_rows
    ((λ r, if selected r then set_subscribed v r else r) <$> rows w)) ;;
  mret (length (filter (λ r, selected r = true) (rows w))).

End ORM.

(** ** [class Subscription] *)

Definition ACTIONS_update : list string := ["subscribe"; "update"; "unsubscribe"].

(** [Subscription._subscribe] *)
Definition _subscribe : Exec (Subscription * World) unit :=
  self ← get_self;
  logger_debug (LogSubscribing self) ;;
  t ← now;
  modify_self (set_subscribe_date (Some t)) ;;
  modify_self (set_subscribed true) ;;
  modify_self (set_unsubscribed false).

(** [Subscription._unsubscribe] *)
Definition _unsubscribe : Exec (Subscription * World) unit :=
  self ← get_self;
  logger_debug (LogUnsubscribing self) ;;
  modify_self (set_subscribed false) ;;
  modify_self (set_unsubscribed true) ;;
  t ← now;
  modify_self (set_unsubscribe_date (Some t)).

Definition msg_neither : string :=
  "Neither an email nor a username is set. This asks for inconsistency!".
Definition msg_both : string :=
  "If user is set, email must be null and vice versa.".

(** [Subscription.save] *)
Definition save : Exec (Subscription * World) unit :=
  self ← get_self;
  assert_ (truthy_obj (user self) || truthy_str (email_field self)) msg_neither ;;
  assert_ ((truthy_obj (user self) && negb (truthy_str (email_field self))) ||
           (truthy_str (email_field self) && negb (truthy_obj (user self))))
          msg_both ;;
  (if truthy_int (pk self) then
     let k := default 0 (pk self) in
     n ← ORM.count k;
     assert_ (bool_decide (n = 1%nat)) "" ;;
     subscription ← ORM.get k;
     let old_subscribed := subscribed subscription in
     let old_unsubscribed := unsubscribed subscription in
     if (subscribed self && negb old_subscribed) ||
        (old_unsubscribed && negb (unsubscribed self))
     then
       _subscribe ;;
       self ← get_self;
       assert_ (negb (unsubscribed self)) "" ;;
       assert_ (subscribed self) ""
     else if (unsubscribed self && negb old_unsubscribed) ||
             (old_subscribed && negb (subscribed self))
     then
       _unsubscribe ;;
       self ← get_self;
       assert_ (negb (subscribed self)) "" ;;
       assert_ (unsubscribed self) ""
     else mret ()
   else
     if subscribed self then _subscribe
     else if unsubscribed self then _unsubscribe
     else mret ()) ;;
  ORM.Model_save.

(** [Subscription.update] *)
Definition update (action : string) : Exec (Subscription * World) unit :=
  assert_ (bool_decide (action ∈ ACTIONS_update)) "" ;;
  (if bool_decide (action = "subscribe") || bool_decide (action = "update")
   then modify_self (set_subscribed true)
   else modify_self (set_unsubscribed true)) ;;
  self ← get_self;
  logger_debug (LogUpdated self action) ;;
  save.

(** ** [class Newsletter] *)

(** Modelled from the spec: the tuple [ACTIONS] that [models.py] imports from
    [newsletter/utils.py], which is not among the sources; the spec's glossary
    lists the action tokens as "subscribe", "update" and "unsubscribe". *)
Definition ACTIONS : list string := ["subscribe"; "unsubscribe"; "update"].

Fixpoint find_template (store : gmap string string) (names : list string)
  : option Template :=
  match names with
  | [] => None
  | n :: rest =>
      match store !! n with
      | Some src => Some (mkTemplate n src)
      | None => find_template store rest
      end
  end.

(** [django.template.loader.select_template]: the first name of the list that
    the template store holds, [TemplateDoesNotExist] when it holds none. *)
Definition select_template {X} (names : list string)
  : Exec (X * World) Template :=
  w ← get_world;
  match find_template (templates w) names with
  | Some t => mret t
  | None => raise (TemplateDoesNotExist names)
  end.

Definition tpl_root : string := "newsletter/message/".

(** [Newsletter.get_templates] *)
Definition get_templates (action : string)
  : Exec (Newsletter * World) (Template * Template * option Template) :=
  self ← get_self;
  assert_ (bool_decide (action ∈ (ACTIONS ++ ["message"])%list))
          ("Unknown action: " +:+ action) ;;
  subject_template ← select_template [
    tpl_root +:+ slug self +:+ "/" +:+ action +:+ "_subject.txt";
    tpl_root +:+ action +:+ "_subject.txt" ];
  text_template ← select_template [
    tpl_root +:+ slug self +:+ "/" +:+ action +:+ ".txt";
    tpl_root +:+ action +:+ ".txt" ];
  html_template ←
    (if send_html self then
       t ← select_template [
         tpl_root +:+ slug self +:+ "/" +:+ action +:+ ".html";
         tpl_root +:+ action +:+ ".html" ];
       mret (Some t)
     else mret None);
  mret (subject_template, text_template, html_template).

(** [Newsletter.get_sender] *)
Definition get_sender (self : Newsletter) : string :=
  sender self +:+ " <" +:+ newsletter_email self +:+ ">".

(** ** Name resolution in [models.py]

    A name that is not local to the function is looked up in the module's
    globals and then among the builtins; [NameError] when neither binds it.
    The globals are the names the module's imports, assignments and class
    statements bind. *)

Definition module_globals : list string :=
  [ "logging"; "logger"; "models"; "permalink"; "select_template"; "now";
    "EmailMultiAlternatives"; "Site"; "CurrentSiteManager"; "settings";
    "make_activation_code"; "get_default_sites"; "ACTIONS"; "User";
    "Newsletter"; "Subscription" ].

Definition builtins : list string :=
  [ "abs"; "all"; "any"; "apply"; "basestring"; "bin"; "bool"; "buffer";
    "bytearray"; "bytes"; "callable"; "chr"; "classmethod"; "cmp"; "coerce";
    "compile"; "complex"; "delattr"; "dict"; "dir"; "divmod"; "enumerate";
    "eval"; "execfile"; "file"; "filter"; "float"; "format"; "frozenset";
    "getattr"; "globals"; "hasattr"; "hash"; "help"; "hex"; "id"; "input";
    "int"; "intern"; "isinstance"; "issubclass"; "iter"; "len"; "list";
    "locals"; "long"; "map"; "max"; "memoryview"; "min"; "next"; "object";
    "oct"; "open"; "ord"; "pow"; "print"; "property"; "range"; "raw_input";
    "reduce"; "reload"; "repr"; "reversed"; "round"; "set"; "setattr";
    "slice"; "sorted"; "staticmethod"; "str"; "sum"; "super"; "tuple"; "type";
    "unichr"; "unicode"; "vars"; "xrange"; "zip"; "True"; "False"; "None";
    "Exception"; "AssertionError"; "NameError"; "KeyError"; "ValueError";
    "TypeError" ].

Definition load_global {S} (name : string) : Exec S unit :=
  if bool_decide (name ∈ (module_globals ++ builtins)%list) then mret ()
  else raise (NameError name).

(** ** Activation e-mail *)

(** The dictionary literal [variable_dict]. *)
Record VariableDict := mkVariableDict {
  var_subscription : Subscription;
  var_site : Site;
  var_newsletter : Newsletter;
  var_date : option Time;
  var_STATIC_URL : string;
  var_MEDIA_URL : string
}.

(** What [django.template.Context(dict, autoescape=...)] builds. *)
Record RenderContext := mkRenderContext {
  context_dict : VariableDict;
  autoescape : bool
}.

Definition is_space (a : ascii) : bool :=
  bool_decide (a ∈ [ascii_of_nat 32; ascii_of_nat 9; ascii_of_nat 10;
                    ascii_of_nat 11; ascii_of_nat 12; ascii_of_nat 13]).

Fixpoint lstrip (s : string) : string :=
  match s with
  | String a s' => if is_space a then lstrip s' else s
  | EmptyString => EmptyString
  end.

(** [str.strip()] *)
Definition strip (s : string) : string :=
  String.rev (lstrip (String.rev (lstrip s))).

(** [Subscription.get_email], the getter of the [email] property *)
Definition get_email (self : Subscription) : option string :=
  match user self with
  | Some u => Some (user_email u)
  | None => email_field self
  end.

(** [message.attach_alternative(content, mimetype)] *)
Definition attach_alternative (content mimetype : string) (m : EmailMessage)
  : EmailMessage :=
  mkEmailMessage (msg_subject m) (msg_body m) (msg_from_email m) (msg_to m)
    (msg_alternatives m ++ [(content, mimetype)])%list.

(** [message.send()]: hands the message to the mail transport. *)
Definition send {X} (m : EmailMessage) : Exec (X * World) unit :=
  modify_world (λ w, set_outbox (outbox w ++ [m])%list w).

Section Rendering.
(** [Template.render] belongs to Django's template engine. *)
Variable render : Template → RenderContext → string.

(** [Subscription.send_activation_email] *)
Definition send_activation_email (action : string)
  : Exec (Subscription * World) unit :=
  assert_ (bool_decide (action ∈ ACTIONS)) ("Unknown action: " +:+ action) ;;
  self ← get_self;
  templates ← call (newsletter self) (get_templates action);
  let '(subject_template, text_template, html_template) := templates.1 in
  w ← get_world;
  let variable_dict :=
    mkVariableDict self (current_site w) (newsletter self)
      (subscribe_date self) (STATIC_URL (settings w))
      (MEDIA_URL (settings w)) in
  load_global "Context" ;;
  let unescaped_context := mkRenderContext variable_dict false in
  let subject := strip (render subject_template unescaped_context) in
  let text := render text_template unescaped_context in
  let message :=
    mkEmailMessage subject text (get_sender (newsletter self))
      [get_email self] [] in
  message ←
    match html_template with
    | Some html =>
        load_global "Context" ;;
        let escaped_context := mkRenderContext variable_dict true in
        mret (attach_alternative (render html escaped_context) "text/html"
                message)
    | None => mret message
    end;
  send message ;;
  logger_debug (LogActivationSent action self).
End Rendering.

(** ** [newsletter/admin.py] *)

Inductive MessageLevel := INFO | SUCCESS.

Record HttpRequest := mkHttpRequest {
  POST : list (string * string);
  session : gmap string (list (string * Subscription));
  messages : list (MessageLevel * string)
}.

Definition set_session (v : gmap string (list (string * Subscription)))
    (r : HttpRequest) : HttpRequest :=
  mkHttpRequest (POST r) v (messages r).

Definition add_message (level : MessageLevel) (text : string)
    (r : HttpRequest) : HttpRequest :=
  mkHttpRequest (POST r) (session r) (messages r ++ [(level, text)]).

Inductive Form :=
| ConfirmForm (data : option (list (string * string))).

Inductive HttpResponse :=
| HttpResponseRedirect (url : string)
| render_to_response (template : string) (form : Form)
    (subscribers : list (string * Subscription)).

(** [ungettext(singular, plural, n)] without a translation catalogue. *)
Definition ungettext (singular plural : string) (n : nat) : string :=
  if bool_decide (n = 1%nat) then singular else plural.

(** [del request.session[key]] *)
Definition session_del (key : string) : Exec (HttpRequest * World) unit :=
  request ← get_self;
  match session request !! key with
  | Some _ => modify_self (set_session (delete key (session request)))
  | None => raise (KeyError key)
  end.

(** [SubscriptionAdmin.admin_status_text] *)
Definition admin_status_text (obj : Subscription) : string :=
  if subscribed obj then "Subscribed"
  else if unsubscribed obj then "Unsubscribed"
  else "Unactivated".

(** [SubscriptionAdmin.make_subscribed]; the queryset is the predicate that
    selects its rows. *)
Definition make_subscribed (queryset : Subscription → bool)
  : Exec (HttpRequest * World) unit :=
  rows_updated ← ORM.queryset_update_subscribed queryset true;
  modify_self (add_message INFO
    (pretty rows_updated +:+
     ungettext " user has been successfully subscribed."
               " users have been successfully subscribed." rows_updated)).

(** [SubscriptionAdmin.make_unsubscribed] *)
Definition make_unsubscribed (queryset : Subscription → bool)
  : Exec (HttpRequest * World) unit :=
  rows_updated ← ORM.queryset_update_subscribed queryset false;
  modify_self (add_message INFO
    (pretty rows_updated +:+
     ungettext " user has been successfully unsubscribed."
               " users have been successfully unsubscribed." rows_updated)).

(** The loop of the confirm view, [for address in addresses.values():
    address.save()].  The saved objects stay reachable only through the
    dictionary, which this branch neither renders nor keeps. *)
Definition save_addresses (addresses : list (string * Subscription))
  : Exec (HttpRequest * World) unit :=
  for_each addresses.*2 (λ address, call address save ;; mret ()).

Section Forms.
(** [ConfirmForm(data).is_valid()], from [newsletter/admin_forms.py], which
    is not among the sources. *)
Variable ConfirmForm_is_valid : list (string * string) → bool.

(** [SubscriptionAdmin.subscribers_import_confirm] *)
Definition subscribers_import_confirm
  : Exec (HttpRequest * World) HttpResponse :=
  request ← get_self;
  match session request !! "addresses" with
  | None => mret (HttpResponseRedirect "../")
  | Some addresses =>
      logger_debug (LogConfirming addresses) ;;
      match POST request with
      | _ :: _ =>
          if ConfirmForm_is_valid (POST request) then
            try_finally (save_addresses addresses)
                        (session_del "addresses") ;;
            modify_self (add_message SUCCESS
              (pretty (length addresses) +:+
               " subscriptions have been successfully added.")) ;;
            mret (HttpResponseRedirect "../../")
          else
            mret (render_to_response
                    "admin/newsletter/subscription/confirmimportform.html"
                    (ConfirmForm (Some (POST request))) addresses)
      | [] =>
          mret (render_to_response
                  "admin/newsletter/subscription/confirmimportform.html"
                  (ConfirmForm None) addresses)
      end
  end.
End Forms.

(** ** The status column of the subscription list *)

(** The double quote of the HTML literals. *)
Definition dq : string := String (ascii_of_nat 34) EmptyString.

(** [ICON_URLS], built from [settings.STATIC_URL] when the module loads. *)
Definition ICON_URLS (st : Settings) : gmap string string :=
  list_to_map
    [ ("yes", STATIC_URL st +:+ "admin/img/icon-yes.gif");
      ("wait", STATIC_URL st +:+ "newsletter/admin/img/waiting.gif");
      ("submit", STATIC_URL st +:+ "newsletter/admin/img/submitting.gif");
      ("no", STATIC_URL st +:+ "admin/img/icon-no.gif") ].

(** The format string of [admin_status], applied to an icon and a text. *)
Definition img_tag (src alt : string) : string :=
  "<img src=" +:+ dq +:+ src +:+ dq +:+
  " width=" +:+ dq +:+ "10" +:+ dq +:+
  " height=" +:+ dq +:+ "10" +:+ dq +:+
  " alt=" +:+ dq +:+ alt +:+ dq +:+ "/>".

(** [SubscriptionAdmin.admin_status] *)
Definition admin_status (st : Settings) (obj : Subscription) : string :=
  if unsubscribed obj then
    img_tag (default "" (ICON_URLS st !! "no")) (admin_status_text obj)
  else if subscribed obj then
    img_tag (default "" (ICON_URLS st !! "yes")) (admin_status_text obj)
  else
    img_tag (default "" (ICON_URLS st !! "wait")) (admin_status_text obj).

(** ** The import upload view *)

(** [ImportForm(request.POST, request.FILES)] and [ImportForm()]. *)
Inductive ImportForm :=
| ImportForm_ (data : option (list (string * string) * list (string * string))).

(** The page [render_to_response] builds for the upload step. *)
Inductive ImportPage :=
| render_import (template : string) (form : ImportForm).

Section ImportForms.
(** [ImportForm.is_valid] and [ImportForm.get_addresses], from
    [newsletter/admin_forms.py], which is not among the sources; they read
    the posted fields and the uploaded files. *)
Variable ImportForm_is_valid :
  list (string * string) → list (string * string) → bool.
Variable ImportForm_get_addresses :
  list (string * string) → list (string * string) →
  list (string * Subscription).

(** [SubscriptionAdmin.subscribers_import]; [FILES] is [request.FILES]. *)
Definition subscribers_import (FILES : list (string * string))
  : Exec (HttpRequest * World) (HttpResponse + ImportPage) :=
  request ← get_self;
  match POST request with
  | _ :: _ =>
      if ImportForm_is_valid (POST request) FILES then
        modify_self (set_session
          (<["addresses" := ImportForm_get_addresses (POST request) FILES]>
             (session request))) ;;
        mret (inl (HttpResponseRedirect "confirm/"))
      else
        mret (inr (render_import
                     "admin/newsletter/subscription/importform.html"
                     (ImportForm_ (Some (POST request, FILES)))))
  | [] =>
      mret (inr (render_import
                   "admin/newsletter/subscription/importform.html"
                   (ImportForm_ None)))
  end.
End ImportForms.

(** ** The [name] and [email] properties of a subscription *)

Definition set_name_field (v : option string) (s : Subscription)
  : Subscription :=
  mkSubscription (pk s) (user s) v (email_field s) (ip s)
    (newsletter s) (create_date s) (activation_code s)
    (subscribed s) (subscribe_date s) (unsubscribed s) (unsubscribe_date s).

Definition set_email_field (v : option string) (s : Subscription)
  : Subscription :=
  mkSubscription (pk s) (user s) (name_field s) v (ip s)
    (newsletter s) (create_date s) (activation_code s)
    (subscribed s) (subscribe_date s) (unsubscribed s) (unsubscribe_date s).

(** [Subscription.get_name] *)
Definition get_name (self : Subscription) : option string :=
  match user self with
  | Some u => Some (full_name u)
  | None => name_field self
  end.

(** [Subscription.set_name] *)
Definition set_name (name : option string) (self : Subscription)
  : Subscription :=
  if negb (truthy_obj (user self)) then set_name_field name self else self.

(** [Subscription.set_email] *)
Definition set_email (email : option string) (self : Subscription)
  : Subscription :=
  if negb (truthy_obj (user self)) then set_email_field email self else self.

(** ** Specification vocabulary *)

(** The identity invariant: exactly one of the user reference and the
    standalone e-mail is set. *)
Definition identity_ok (self : Subscription) : bool :=
  (truthy_obj (user self) && negb (truthy_str (email_field self))) ||
  (truthy_str (email_field self) && negb (truthy_obj (user self))).

(** The condition under which [save] subscribes an existing record whose
    stored row is [old]. *)
Definition subscribes (self old : Subscription) : bool :=
  (subscribed self && negb (subscribed old)) ||
  (unsubscribed old && negb (unsubscribed self)).

Definition unsubscribes (self old : Subscription) : bool :=
  (unsubscribed self && negb (unsubscribed old)) ||
  (subscribed old && negb (subscribed self)).

(** A run of a call, without the debug log it wrote. *)
Definition forget_log {A} (r : Outcome A * (Subscription * World))
  : Outcome A * (Subscription * World) :=
  (r.1, (r.2.1, set_log [] r.2.2)).

(** The ways [save] can go, by what the record and the table hold. *)
Inductive save_case (self : Subscription) (w : World) : Type :=
| CaseNeither :
    truthy_obj (user self) || truthy_str (email_field self) = false →
    save_case self w
| CaseBoth :
    truthy_obj (user self) = true → truthy_str (email_field self) = true →
    save_case self w
| CaseNew :
    identity_ok self = true → truthy_int (pk self) = false → save_case self w
| CaseStale k :
    identity_ok self = true → pk self = Some k → k ≠ 0 →
    length (ORM.filter_pk k (rows w)) ≠ 1%nat → save_case self w
| CaseExisting k old :
    identity_ok self = true → pk self = Some k → k ≠ 0 →
    ORM.filter_pk k (rows w) = [old] → save_case self w.

(** The record and the world that [save] hands to the base class's [save],
    for an existing record whose stored row is [old], and for a new one. *)
Definition transition_existing (self old : Subscription) (w : World)
  : Subscription * World :=
  if subscribes self old then (_subscribe (self, w)).2
  else if unsubscribes self old then (_unsubscribe (self, w)).2
  else (self, w).

Definition transition_new (self : Subscription) (w : World)
  : Subscription * World :=
  if subscribed self then (_subscribe (self, w)).2
  else if unsubscribed self then (_unsubscribe (self, w)).2
  else (self, w).

(** The three conditions under which the spec has [save] fail fast. *)
Definition identity_unset (self : Subscription) : bool :=
  negb (truthy_obj (user self)) && negb (truthy_str (email_field self)).

Definition identity_both (self : Subscription) : bool :=
  truthy_obj (user self) && truthy_str (email_field self).

Definition key_unresolved (self : Subscription) (w : World) : bool :=
  match pk self with
  | Some k =>
      negb (bool_decide (k = 0)) &&
      negb (bool_decide (length (ORM.filter_pk k (rows w)) = 1%nat))
  | None => false
  end.

(** An address as the import builds it: never saved, with exactly one of
    the user reference and the standalone e-mail. *)
Definition new_address (a : Subscription) : Prop :=
  identity_ok a = true ∧ pk a = None.

(** The template contract in the spec's words: the newsletter's own
    template when the store has one, the newsletter-agnostic one
    otherwise. *)
Definition override_path (slug action suffix : string) : string :=
  tpl_root +:+ slug +:+ "/" +:+ action +:+ suffix.

Definition fallback_path (action suffix : string) : string :=
  tpl_root +:+ action +:+ suffix.

Definition resolves_to (store : gmap string string)
    (slug action suffix : string) (t : Template) : Prop :=
  match store !! override_path slug action suffix with
  | Some src => t = mkTemplate (override_path slug action suffix) src
  | None =>
      ∃ src, store !! fallback_path action suffix = Some src ∧
             t = mkTemplate (fallback_path action suffix) src
  end.

(** The parts a newsletter needs, and whether the store can supply each. *)
Definition template_suffixes (nl : Newsletter) : list string :=
  ["_subject.txt"; ".txt"] ++ (if send_html nl then [".html"] else []).

Definition templates_available (store : gmap string string)
    (nl : Newsletter) (action : string) : bool :=
  forallb (λ suffix,
             bool_decide (is_Some (store !! override_path (slug nl) action suffix))
             || bool_decide (is_Some (store !! fallback_path action suffix)))
          (template_suffixes nl).

(** ** Sample data *)

Definition weekly : Newsletter :=
  mkNewsletter 1 "Weekly" "weekly" "news@example.org" "The Editors" true true.

Definition alice : Subscription :=
  mkSubscription None None (Some "Alice") (Some "alice@example.org") None
    weekly 100 "c0ffee" false None false None.

Definition world0 : World :=
  mkWorld 1000 [] [] [] ∅ (mkSite "example.org" "Example")
    (mkSettings "/static/" "/media/").

Definition bob_both : Subscription :=
  mkSubscription (Some 1) None (Some "Bob") (Some "bob@example.org") None
    weekly 100 "decaf" true (Some 500) true (Some 600).

Definition carol_unsubscribed : Subscription :=
  mkSubscription (Some 1) None (Some "Carol") (Some "carol@example.org") None
    weekly 100 "facade" false (Some 300) true (Some 400).

Definition dave_subscribed : Subscription :=
  mkSubscription (Some 1) None (Some "Dave") (Some "dave@example.org") None
    weekly 100 "ba5e" true (Some 500) false None.

Definition request0 : HttpRequest := mkHttpRequest [] ∅ [].

(** The queryset of the admin action with every row of the list ticked. *)
Definition all_rows : Subscription → bool := λ _, true.

Definition nobody : Subscription :=
  mkSubscription None None None None None weekly 100 "0ddba11"
    false None false None.

Definition import_request : HttpRequest :=
  mkHttpRequest [("confirm", "on")]
    {[ "addresses" := [("nobody", nobody); ("alice@example.org", alice)] ]}
    [].

Definition always_valid : list (string * string) → bool := λ _, true.

(** The default templates for "subscribe", and the text body that the
    "weekly" newsletter overrides. *)
Definition world_templates : World :=
  mkWorld 1000 [] [] []
    (list_to_map
       [ ("newsletter/message/subscribe_subject.txt", "Confirm");
         ("newsletter/message/subscribe.txt", "Please confirm.");
         ("newsletter/message/subscribe.html", "<p>Please confirm.</p>");
         ("newsletter/message/weekly/subscribe.txt", "Weekly: confirm.") ])
    (mkSite "example.org" "Example") (mkSettings "/static/" "/media/").

(** A renderer to run the examples with: the template's source. *)
Definition render_source : Template → RenderContext → string :=
  λ t _, template_source t.

(** A row whose two flags are not set together. *)
Definition exclusive (r : Subscription) : Prop :=
  ¬ (subscribed r = true ∧ unsubscribed r = true).

(** The next request of the same browser session: new posted fields, the
    session and the pending messages of the previous one. *)
Definition next_request (post : list (string * string))
    (previous : HttpRequest) : HttpRequest :=
  mkHttpRequest post (session previous) (messages previous).

(** A confirmation: the addresses are in the session and the posted
    confirmation form is valid. *)
Definition confirmation (valid : list (string * string) → bool)
    (request : HttpRequest) : bool :=
  bool_decide (is_Some (session request !! "addresses")) &&
  negb (bool_decide (POST request = [])) && valid (POST request).

(** * Equations of the methods *)

Local Open Scope list_scope.

Ltac exec_unfold :=
  unfold _subscribe, _unsubscribe, ORM.count, ORM.get, now, logger_debug,
    get_self, get_world, modify_self, modify_world, assert_, raise,
    mbind, mret, Exec_bind, Exec_ret.

Lemma Model_save_eq self w :
  ORM.Model_save (self, w) =
  match pk self with
  | Some k =>
      (Return (), (self,
        set_rows (if decide (ORM.filter_pk k (rows w) = [])
                  then rows w ++ [self]
                  else ORM.update_rows k self (rows w)) w))
  | None =>
      let self' := set_pk (Some (ORM.next_pk (rows w))) self in
      (Return (), (self', set_rows (rows w ++ [self']) w))
  end.
Proof.
  unfold ORM.Model_save. exec_unfold. simpl.
  destruct (pk self); [|done]. by case_decide.
Qed.

Lemma _subscribe_eq self w :
  _subscribe (self, w) =
  (Return (), (set_unsubscribed false (set_subscribed true
                 (set_subscribe_date (Some (clock w)) self)),
               set_log (log w ++ [LogSubscribing self]) w)).
Proof. reflexivity. Qed.

Lemma _unsubscribe_eq self w :
  _unsubscribe (self, w) =
  (Return (), (set_unsubscribe_date (Some (clock w)) (set_unsubscribed true
                 (set_subscribed false self)),
               set_log (log w ++ [LogUnsubscribing self]) w)).
Proof. reflexivity. Qed.

Lemma save_neither self w :
  truthy_obj (user self) || truthy_str (email_field self) = false →
  save (self, w) = (Raise (AssertionError msg_neither), (self, w)).
Proof. intros H. unfold save. exec_unfold. simpl. by rewrite H. Qed.

Lemma save_both self w :
  truthy_obj (user self) = true → truthy_str (email_field self) = true →
  save (self, w) = (Raise (AssertionError msg_both), (self, w)).
Proof. intros H1 H2. unfold save. exec_unfold. simpl. by rewrite H1, H2. Qed.

Lemma save_new self w :
  identity_ok self = true → truthy_int (pk self) = false →
  save (self, w) =
  ORM.Model_save
    (if subscribed self then (_subscribe (self, w)).2
     else if unsubscribed self then (_unsubscribe (self, w)).2
     else (self, w)).
Proof.
  unfold identity_ok. intros Hid Hpk. unfold save. exec_unfold. simpl.
  rewrite Hid, Hpk.
  destruct (truthy_obj (user self)), (truthy_str (email_field self));
    try done; simpl.
  all: destruct (subscribed self), (unsubscribed self); reflexivity.
Qed.

Lemma save_stale self w k :
  identity_ok self = true → pk self = Some k → k ≠ 0 →
  length (ORM.filter_pk k (rows w)) ≠ 1%nat →
  save (self, w) = (Raise (AssertionError ""), (self, w)).
Proof.
  unfold identity_ok. intros Hid Hpk Hk Hn. unfold save. exec_unfold. simpl.
  rewrite Hid, Hpk. simpl.
  destruct (truthy_obj (user self)), (truthy_str (email_field self));
    try done; simpl.
  all: rewrite !bool_decide_eq_false_2 by done; simpl.
  all: by rewrite !bool_decide_eq_false_2 by done.
Qed.

Lemma save_existing self w k old :
  identity_ok self = true → pk self = Some k → k ≠ 0 →
  ORM.filter_pk k (rows w) = [old] →
  save (self, w) =
  ORM.Model_save
    (if subscribes self old then (_subscribe (self, w)).2
     else if unsubscribes self old then (_unsubscribe (self, w)).2
     else (self, w)).
Proof.
  unfold identity_ok, subscribes, unsubscribes. intros Hid Hpk Hk Hf.
  unfold save. exec_unfold. simpl. rewrite Hid, Hpk. simpl.
  destruct (truthy_obj (user self)), (truthy_str (email_field self));
    try done; simpl.
  all: rewrite !bool_decide_eq_false_2 by done; simpl.
  all: repeat (rewrite Hf; simpl).
  all: destruct (subscribed self), (unsubscribed self),
         (subscribed old), (unsubscribed old); reflexivity.
Qed.

Lemma save_cases self w : save_case self w.
Proof.
  destruct (truthy_obj (user self)) eqn:Hu,
           (truthy_str (email_field self)) eqn:He.
  - by apply CaseBoth.
  - destruct (pk self) as [k|] eqn:Hpk.
    + destruct (decide (k = 0)) as [->|Hk].
      { apply CaseNew; unfold identity_ok; by rewrite ?Hu, ?He, ?Hpk. }
      destruct (ORM.filter_pk k (rows w)) as [|old [|]] eqn:Hf.
      * apply (CaseStale _ _ k); unfold identity_ok; rewrite ?Hu, ?He, ?Hf; done.
      * apply (CaseExisting _ _ k old); unfold identity_ok; by rewrite ?Hu, ?He.
      * apply (CaseStale _ _ k); unfold identity_ok; rewrite ?Hu, ?He, ?Hf; done.
    + apply CaseNew; unfold identity_ok; by rewrite ?Hu, ?He, ?Hpk.
  - destruct (pk self) as [k|] eqn:Hpk.
    + destruct (decide (k = 0)) as [->|Hk].
      { apply CaseNew; unfold identity_ok; by rewrite ?Hu, ?He, ?Hpk. }
      destruct (ORM.filter_pk k (rows w)) as [|old [|]] eqn:Hf.
      * apply (CaseStale _ _ k); unfold identity_ok; rewrite ?Hu, ?He, ?Hf; done.
      * apply (CaseExisting _ _ k old); unfold identity_ok; by rewrite ?Hu, ?He.
      * apply (CaseStale _ _ k); unfold identity_ok; rewrite ?Hu, ?He, ?Hf; done.
    + apply CaseNew; unfold identity_ok; by rewrite ?Hu, ?He, ?Hpk.
  - apply CaseNeither. by rewrite Hu, He.
Qed.

(** * The table under [Model.save] *)

Lemma filter_pk_update_rows k self tbl :
  pk self = Some k →
  ORM.filter_pk k (ORM.update_rows k self tbl) =
  (λ _, self) <$> ORM.filter_pk k tbl.
Proof.
  intros Hpk. unfold ORM.filter_pk, ORM.update_rows.
  induction tbl as [|r tbl IH]; [done|].
  rewrite fmap_cons, !filter_cons.
  destruct (decide (pk r = Some k)) as [Hr|Hr].
  - rewrite decide_True by done. by rewrite fmap_cons, IH.
  - by rewrite decide_False.
Qed.

Lemma next_pk_bound tbl r j :
  r ∈ tbl → pk r = Some j → j < ORM.next_pk tbl.
Proof.
  unfold ORM.next_pk. induction 1 as [r tbl|r r' tbl _ IH]; intros Hj; simpl.
  - rewrite Hj. simpl. lia.
  - specialize (IH Hj). lia.
Qed.

Lemma next_pk_pos tbl : 0 < ORM.next_pk tbl.
Proof.
  unfold ORM.next_pk. induction tbl as [|r tbl IH]; simpl; lia.
Qed.

Lemma next_pk_fresh tbl : ORM.filter_pk (ORM.next_pk tbl) tbl = [].
Proof.
  destruct (ORM.filter_pk (ORM.next_pk tbl) tbl) as [|r l] eqn:Hf; [done|].
  assert (r ∈ ORM.filter_pk (ORM.next_pk tbl) tbl) as Hr by (rewrite Hf; left).
  apply list_elem_of_filter in Hr as [Hpk Hr].
  pose proof (next_pk_bound tbl r _ Hr Hpk). lia.
Qed.

Lemma filter_pk_app k tbl1 tbl2 :
  ORM.filter_pk k (tbl1 ++ tbl2) = ORM.filter_pk k tbl1 ++ ORM.filter_pk k tbl2.
Proof. apply filter_app. Qed.

(** What [Model.save] leaves in the table: the instance, as the only row of
    its key when the key was free or unique before. *)
Lemma Model_save_row self w :
  let r := ORM.Model_save (self, w) in
  r.1 = Return () ∧ r.2.1 ∈ rows r.2.2 ∧
  subscribed r.2.1 = subscribed self ∧
  unsubscribed r.2.1 = unsubscribed self ∧
  subscribe_date r.2.1 = subscribe_date self ∧
  unsubscribe_date r.2.1 = unsubscribe_date self ∧
  user r.2.1 = user self ∧ email_field r.2.1 = email_field self ∧
  log r.2.2 = log w ∧ clock r.2.2 = clock w ∧ outbox r.2.2 = outbox w ∧
  (∀ k, pk self = Some k → r.2.1 = self ∧
        ((length (ORM.filter_pk k (rows w)) ≤ 1)%nat →
        ORM.filter_pk k (rows r.2.2) = [self])) ∧
  (pk self = None →
     r.2.1 = set_pk (Some (ORM.next_pk (rows w))) self ∧
     rows r.2.2 = rows w ++ [r.2.1] ∧
     ORM.filter_pk (ORM.next_pk (rows w)) (rows r.2.2) = [r.2.1]).
Proof.
  rewrite Model_save_eq. destruct (pk self) as [k|] eqn:Hpk; simpl.
  - split_and!; try done.
    + case_decide as Hf; [set_solver|].
      destruct (ORM.filter_pk k (rows w)) as [|r0 l] eqn:Hf'; [done|].
      assert (r0 ∈ ORM.filter_pk k (rows w)) as Hin by (rewrite Hf'; left).
      apply list_elem_of_filter in Hin as [Hr0 Hin].
      unfold ORM.update_rows. apply list_elem_of_fmap.
      exists r0. by rewrite decide_True.
    + intros k' [= <-]. split; [done|]. intros Hlen. case_decide as Hf.
      * rewrite filter_pk_app, Hf. unfold ORM.filter_pk.
        rewrite filter_cons, decide_True by done. done.
      * rewrite filter_pk_update_rows by done.
        destruct (ORM.filter_pk k (rows w)) as [|r0 [|r1 l]]; simpl in *;
          [done|done|lia].
  - split_and!; try done.
    + set_solver.
    + rewrite filter_pk_app, next_pk_fresh. unfold ORM.filter_pk.
      rewrite filter_cons, decide_True by done. done.
Qed.
(** * The state-transition hook *)


(** C1, as stated, fails: an existing record whose stored row already has
    both flags set, saved with both flags set, goes through [save] without a
    transition and keeps [subscribed] and [unsubscribed] true together. *)
Lemma save_keeps_both_flags_counterexample :
  save (bob_both, set_rows [bob_both] world0) =
    (Return (), (bob_both, set_rows [bob_both] world0)) ∧
  subscribed bob_both = true ∧ unsubscribed bob_both = true.
Proof. split; [|split]; reflexivity. Qed.

(** C1 (amended): after a successful [save] the written record has
    [subscribed] and [unsubscribed] both true exactly when it is an existing
    record saved with both flags requested true over a stored row that
    already had both flags true; in every other case the two flags are never
    true together. *)
Theorem save_flags_exclusive self w self' w' :
  save (self, w) = (Return (), (self', w')) →
  self' ∈ rows w' ∧
  (subscribed self' = true ∧ unsubscribed self' = true ↔
   subscribed self = true ∧ unsubscribed self = true ∧
   ∃ k old, pk self = Some k ∧ k ≠ 0 ∧
     ORM.filter_pk k (rows w) = [old] ∧
     subscribed old = true ∧ unsubscribed old = true).
Proof.
  intros Hsave.
  destruct (save_cases self w) as [Hn|Hu He|Hid Hpk|k Hid Hpk Hk Hlen|k old Hid Hpk Hk Hf].
  - rewrite save_neither in Hsave by done. discriminate.
  - rewrite save_both in Hsave by done. discriminate.
  - rewrite save_new in Hsave by done.
    rewrite _subscribe_eq, _unsubscribe_eq in Hsave. simpl in Hsave.
    destruct (subscribed self) eqn:Hs, (unsubscribed self) eqn:Hun.
    all: match type of Hsave with ORM.Model_save ?st = _ =>
           pose proof (Model_save_row st.1 st.2) as Hrow end.
    all: simpl in Hrow; rewrite Hsave in Hrow; simpl in Hrow.
    all: destruct Hrow as (_ & Hin & Hs' & Hun' & _).
    all: split; [done|].
    all: split; [intros [H1 H2]; congruence|].
    all: intros (H1 & H2 & k & old & Hk & Hk0 & _); try done.
    all: rewrite Hk in Hpk; simpl in Hpk.
    all: by rewrite bool_decide_eq_false_2 in Hpk.
  - rewrite (save_stale self w k) in Hsave by done. discriminate.
  - rewrite (save_existing self w k old) in Hsave by done.
    rewrite _subscribe_eq, _unsubscribe_eq in Hsave. simpl in Hsave.
    unfold subscribes, unsubscribes in Hsave.
    destruct (subscribed self) eqn:Hs, (unsubscribed self) eqn:Hun,
             (subscribed old) eqn:Hos, (unsubscribed old) eqn:Hou;
      simpl in Hsave.
    all: match type of Hsave with ORM.Model_save ?st = _ =>
           pose proof (Model_save_row st.1 st.2) as Hrow end.
    all: simpl in Hrow; rewrite Hsave in Hrow; simpl in Hrow.
    all: destruct Hrow as (_ & Hin & Hs' & Hun' & _).
    all: split; [done|].
    all: split;
      [intros [H1 H2]; try congruence
      |intros (H1 & H2 & k' & old' & Hk' & _ & Hf' & Hos' & Hou'); try done].
    all: try (split_and!; [done..|]; exists k, old; by rewrite Hos, Hou).
    all: rewrite Hk' in Hpk; injection Hpk as ->; rewrite Hf' in Hf;
         injection Hf as ->.
    all: first [congruence | split; congruence].
Qed.

Lemma save_flags_exclusive_witness :
  set_pk (Some 1) alice ∈ rows (set_rows [set_pk (Some 1) alice] world0).
Proof.
  apply (save_flags_exclusive alice world0 (set_pk (Some 1) alice)
           (set_rows [set_pk (Some 1) alice] world0)).
  reflexivity.
Defined.


Lemma transition_existing_frame self old w :
  let st := transition_existing self old w in
  pk st.1 = pk self ∧ user st.1 = user self ∧
  email_field st.1 = email_field self ∧
  rows st.2 = rows w ∧ clock st.2 = clock w ∧ outbox st.2 = outbox w.
Proof.
  unfold transition_existing.
  destruct (subscribes self old), (unsubscribes self old); done.
Qed.

Lemma transition_new_frame self w :
  let st := transition_new self w in
  pk st.1 = pk self ∧ user st.1 = user self ∧
  email_field st.1 = email_field self ∧
  rows st.2 = rows w ∧ clock st.2 = clock w ∧ outbox st.2 = outbox w.
Proof.
  unfold transition_new.
  destruct (subscribed self), (unsubscribed self); done.
Qed.

Lemma save_existing_stored self w k old :
  identity_ok self = true → pk self = Some k → k ≠ 0 →
  ORM.filter_pk k (rows w) = [old] →
  ∃ w', save (self, w) =
          (Return (), ((transition_existing self old w).1, w')) ∧
    log w' = log (transition_existing self old w).2 ∧
    clock w' = clock w ∧ outbox w' = outbox w ∧
    ORM.filter_pk k (rows w') = [(transition_existing self old w).1].
Proof.
  intros Hid Hpk Hk Hf. rewrite (save_existing self w k old) by done.
  fold (transition_existing self old w).
  destruct (transition_existing_frame self old w)
    as (Hpk' & _ & _ & Hrows & Hclock & Hout).
  set (st := transition_existing self old w) in *.
  pose proof (Model_save_row st.1 st.2) as Hrow. simpl in Hrow.
  rewrite <- surjective_pairing in Hrow.
  destruct (ORM.Model_save st) as [o [s' w']]. simpl in Hrow.
  destruct Hrow as (-> & _ & _ & _ & _ & _ & _ & _ & Hlog & Hc & Ho & Hsome & _).
  destruct (Hsome k) as [-> Hfilter]; [congruence|].
  exists w'. split_and!; try congruence.
  apply Hfilter. by rewrite Hrows, Hf.
Qed.

Lemma save_new_stored self w :
  identity_ok self = true → truthy_int (pk self) = false →
  ∃ self' w', save (self, w) = (Return (), (self', w')) ∧
    self' ∈ rows w' ∧
    subscribed self' = subscribed (transition_new self w).1 ∧
    unsubscribed self' = unsubscribed (transition_new self w).1 ∧
    subscribe_date self' = subscribe_date (transition_new self w).1 ∧
    unsubscribe_date self' = unsubscribe_date (transition_new self w).1 ∧
    log w' = log (transition_new self w).2 ∧
    clock w' = clock w ∧ outbox w' = outbox w ∧
    user self' = user self ∧ email_field self' = email_field self ∧
    (∀ j, pk self = Some j → pk self' = Some j) ∧
    (pk self = None →
       self' = set_pk (Some (ORM.next_pk (rows w))) (transition_new self w).1 ∧
       rows w' = rows w ++ [self'] ∧
       ORM.filter_pk (ORM.next_pk (rows w)) (rows w') = [self']).
Proof.
  intros Hid Hpk. rewrite save_new by done. fold (transition_new self w).
  destruct (transition_new_frame self w)
    as (Hpk' & Huser & Hemail & Hrows & Hclock & Hout).
  set (st := transition_new self w) in *.
  pose proof (Model_save_row st.1 st.2) as Hrow. simpl in Hrow.
  rewrite <- surjective_pairing in Hrow.
  destruct (ORM.Model_save st) as [o [s' w']]. simpl in Hrow.
  destruct Hrow as (-> & Hin & Hs & Hu & Hsd & Hud & Hus & Hem & Hlog & Hc
                    & Ho & Hsome & Hnone).
  exists s', w'. split_and!; try congruence.
  - intros j Hj. destruct (Hsome j) as [-> _]; congruence.
  - intros Hnopk. destruct Hnone as (-> & Hr & Hfil); [congruence|].
    rewrite Hrows in *. done.
Qed.





(** After a successful [save] the record satisfies the identity invariant
    and, when its key is set, is the one row of the table under that key. *)
Lemma save_post self w self1 w1 :
  save (self, w) = (Return (), (self1, w1)) →
  identity_ok self1 = true ∧
  ∀ k, pk self1 = Some k → k ≠ 0 → ORM.filter_pk k (rows w1) = [self1].
Proof.
  intros Hsave.
  destruct (save_cases self w) as [Hn|Hu He|Hid Hpk|k Hid Hpk Hk Hlen|k old Hid Hpk Hk Hf].
  - rewrite save_neither in Hsave by done. discriminate.
  - rewrite save_both in Hsave by done. discriminate.
  - destruct (save_new_stored self w Hid Hpk)
      as (s' & w' & Hsave' & _ & _ & _ & _ & _ & _ & _ & _ & Hus & Hem & Hsome
          & Hnone).
    rewrite Hsave in Hsave'. injection Hsave' as <- <-.
    split; [unfold identity_ok in *; by rewrite Hus, Hem|].
    intros k Hk Hk0. destruct (pk self) as [j|] eqn:Hj.
    + rewrite (Hsome j eq_refl) in Hk. injection Hk as ->.
      simpl in Hpk. by rewrite bool_decide_eq_false_2 in Hpk.
    + destruct Hnone as (Heq & _ & Hfil); [done|].
      rewrite Heq in Hk. simpl in Hk. injection Hk as <-. exact Hfil.
  - rewrite (save_stale self w k) in Hsave by done. discriminate.
  - destruct (save_existing_stored self w k old Hid Hpk Hk Hf)
      as (w' & Hsave' & _ & _ & _ & Hfil).
    rewrite Hsave in Hsave'. injection Hsave' as -> <-.
    destruct (transition_existing_frame self old w) as (Hpk' & Hus & Hem & _).
    simpl in *.
    split; [unfold identity_ok in *; by rewrite Hus, Hem|].
    intros k' Hk' _. rewrite Hpk', Hpk in Hk'. by injection Hk' as <-.
Qed.




(** Alice subscribes at 1000 and, with the clock at 2000, asks to be
    subscribed again: the second save keeps the first date. *)
Example subscribe_twice_keeps_date :
  let first := (update "subscribe" (alice, world0)).2 in
  let second := (update "subscribe" (first.1, set_clock 2000 first.2)).2 in
  subscribe_date first.1 = Some 1000 ∧
  subscribe_date second.1 = Some 1000 ∧
  subscribe_date <$> rows second.2 = [Some 1000].
Proof. vm_compute. repeat split. Qed.

(** An unsubscribed record that subscribes again gets a new date. *)
Example resubscribe_sets_date :
  let after :=
    (update "subscribe"
       (set_unsubscribed false carol_unsubscribed,
        set_clock 2000 (set_rows [carol_unsubscribed] world0))).2 in
  subscribe_date after.1 = Some 2000 ∧
  (subscribed after.1, unsubscribed after.1) = (true, false).
Proof. vm_compute. repeat split. Qed.



(** * [Subscription.update] *)

Lemma Model_save_forget_log st l :
  forget_log (ORM.Model_save (st.1, set_log l st.2)) =
  forget_log (ORM.Model_save st).
Proof.
  destruct st as [self w]. rewrite !Model_save_eq. simpl.
  destruct (pk self); reflexivity.
Qed.

(** What [save] does to the record and the table does not depend on the
    debug log it starts from. *)
Lemma save_forget_log self w l :
  forget_log (save (self, set_log l w)) = forget_log (save (self, w)).
Proof.
  destruct (save_cases self w) as [Hn|Hu He|Hid Hpk|k Hid Hpk Hk Hlen|k old Hid Hpk Hk Hf].
  - by rewrite !save_neither.
  - by rewrite !save_both.
  - rewrite !save_new by done. rewrite !_subscribe_eq, !_unsubscribe_eq.
    destruct (subscribed self), (unsubscribed self); simpl;
      rewrite !Model_save_eq; simpl; destruct (pk self); reflexivity.
  - by rewrite !(save_stale _ _ k).
  - rewrite !(save_existing _ _ k old) by done.
    rewrite !_subscribe_eq, !_unsubscribe_eq.
    destruct (subscribes self old), (unsubscribes self old); simpl;
      rewrite !Model_save_eq; simpl; destruct (pk self); reflexivity.
Qed.

Lemma update_subscribed_eq action self w :
  action = "subscribe" ∨ action = "update" →
  update action (self, w) =
  save (set_subscribed true self,
        set_log (log w ++ [LogUpdated (set_subscribed true self) action]) w).
Proof. intros [-> | ->]; reflexivity. Qed.

Lemma update_unsubscribed_eq self w :
  update "unsubscribe" (self, w) =
  save (set_unsubscribed true self,
        set_log (log w ++ [LogUpdated (set_unsubscribed true self)
                             "unsubscribe"]) w).
Proof. reflexivity. Qed.

(** C6: [update("subscribe")] and [update("update")] both assign
    [subscribed = True] and then call [save], so they end with the same
    outcome, record and world (the debug line that names the action apart);
    [update("unsubscribe")] assigns [unsubscribed = True] and calls [save];
    any other token fails the assertion before anything is changed. *)
Theorem update_actions self w :
  forget_log (update "subscribe" (self, w)) =
    forget_log (save (set_subscribed true self, w)) ∧
  forget_log (update "update" (self, w)) =
    forget_log (save (set_subscribed true self, w)) ∧
  forget_log (update "subscribe" (self, w)) =
    forget_log (update "update" (self, w)) ∧
  forget_log (update "unsubscribe" (self, w)) =
    forget_log (save (set_unsubscribed true self, w)) ∧
  (∀ action, action ∉ ["subscribe"; "update"; "unsubscribe"] →
     update action (self, w) = (Raise (AssertionError ""), (self, w))).
Proof.
  assert (∀ a, a = "subscribe" ∨ a = "update" →
            forget_log (update a (self, w)) =
            forget_log (save (set_subscribed true self, w))) as Hsub.
  { intros a Ha. rewrite update_subscribed_eq by done. apply save_forget_log. }
  split_and!.
  - apply Hsub. by left.
  - apply Hsub. by right.
  - rewrite !Hsub; [done | by right | by left].
  - rewrite update_unsubscribed_eq. apply save_forget_log.
  - intros action Hno. unfold update, ACTIONS_update.
    unfold assert_, mbind, Exec_bind, raise.
    by rewrite bool_decide_eq_false_2.
Qed.

Lemma update_actions_witness :
  update "resubscribe" (alice, world0) =
    (Raise (AssertionError ""), (alice, world0)).
Proof.
  destruct (update_actions alice world0) as (_ & _ & _ & _ & Hreject).
  apply Hreject. apply (proj1 (bool_decide_eq_false _)). reflexivity.
Defined.


(** * The admin bulk actions *)

(** The bulk actions write the [subscribed] column and nothing else: no
    transition is logged and no row's [unsubscribed] flag or timestamps
    change, whatever the rows were. *)
Lemma queryset_update_frame (queryset : Subscription → bool) v
    (request : HttpRequest) w :
  let r := ORM.queryset_update_subscribed queryset v (request, w) in
  log r.2.2 = log w ∧
  unsubscribed <$> rows r.2.2 = unsubscribed <$> rows w ∧
  subscribe_date <$> rows r.2.2 = subscribe_date <$> rows w ∧
  unsubscribe_date <$> rows r.2.2 = unsubscribe_date <$> rows w.
Proof.
  simpl. split; [done|].
  rewrite <- !list_fmap_compose.
  split_and!; apply list_fmap_ext; intros i r _; simpl; by destruct (queryset r).
Qed.

(** C4 (the code departs from it): on a table holding one subscribed row,
    the action "Unsubscribe selected users" clears [subscribed] in the row
    with no call of [save]: nothing is logged, [unsubscribed] stays false,
    [unsubscribe_date] stays unset and the list shows the row as
    "Unactivated", while the action reports one user unsubscribed.  Saving
    the same change through [Subscription.save] marks the row unsubscribed
    and dates it.  Likewise "Subscribe selected users" on an unsubscribed
    row leaves both flags true and [subscribe_date] as it was. *)
Theorem admin_actions_bypass_save :
  let w := set_rows [dave_subscribed] world0 in
  let after := (make_unsubscribed all_rows (request0, w)).2 in
  rows after.2 = [set_subscribed false dave_subscribed] ∧
  log after.2 = [] ∧
  unsubscribed <$> rows after.2 = [false] ∧
  unsubscribe_date <$> rows after.2 = [None] ∧
  admin_status_text <$> rows after.2 = ["Unactivated"] ∧
  messages after.1 = [(INFO, "1 user has been successfully unsubscribed.")] ∧
  (let saved := (save (set_subscribed false dave_subscribed, w)).2 in
   log saved.2 = [LogUnsubscribing (set_subscribed false dave_subscribed)] ∧
   unsubscribed <$> rows saved.2 = [true] ∧
   unsubscribe_date <$> rows saved.2 = [Some 1000] ∧
   admin_status_text <$> rows saved.2 = ["Unsubscribed"]) ∧
  (let w := set_rows [carol_unsubscribed] world0 in
   let after := (make_subscribed all_rows (request0, w)).2 in
   log after.2 = [] ∧
   subscribed <$> rows after.2 = [true] ∧
   unsubscribed <$> rows after.2 = [true] ∧
   subscribe_date <$> rows after.2 = [Some 300]).
Proof. vm_compute. repeat split. Qed.


(** * The import confirm view *)

Lemma for_each_app {S A} (xs ys : list A) (body : A → Exec S unit) s :
  for_each (xs ++ ys) body s =
  match for_each xs body s with
  | (Return _, s') => for_each ys body s'
  | (Raise e, s') => (Raise e, s')
  end.
Proof.
  revert s. induction xs as [|x xs IH]; intros s; simpl; [done|].
  unfold mbind, Exec_bind. destruct (body x s) as [[e|[]] s']; [done|].
  apply IH.
Qed.

Lemma for_each_raise {S A} (x : A) xs (body : A → Exec S unit) s e s' :
  body x s = (Raise e, s') → for_each (x :: xs) body s = (Raise e, s').
Proof. intros H. simpl. unfold mbind, Exec_bind. by rewrite H. Qed.

Lemma call_save_raise (request : HttpRequest) a w e a' w' :
  save (a, w) = (Raise e, (a', w')) →
  (call a save ;; mret ()) (request, w) = (Raise e, (request, w')).
Proof. intros H. unfold mbind, Exec_bind, call. simpl. by rewrite H. Qed.

Lemma call_save_request (request : HttpRequest) a w :
  ((call a save ;; mret ()) (request, w)).2.1 = request.
Proof.
  unfold mbind, Exec_bind, call. simpl.
  by destruct (save (a, w)) as [[e|[]] [a' w']].
Qed.

Lemma save_addresses_request l (request : HttpRequest) w :
  (for_each l (λ a, call a save ;; mret ()) (request, w)).2.1 = request.
Proof.
  revert w. induction l as [|a l IH]; intros w; simpl; [done|].
  unfold mbind at 1, Exec_bind at 1.
  pose proof (call_save_request request a w) as Hreq.
  destruct ((call a save ;; mret ()) (request, w)) as [[e|[]] [r' w']];
    simpl in *; subst r'; [done|]. apply IH.
Qed.

(** Saving addresses that are all new appends one row for each, in order. *)
Lemma save_addresses_new l (request : HttpRequest) w :
  Forall new_address l →
  ∃ w' new,
    for_each l (λ a, call a save ;; mret ()) (request, w) =
      (Return (), (request, w')) ∧
    rows w' = rows w ++ new ∧
    Forall2 (λ a r, user r = user a ∧ email_field r = email_field a ∧
                    newsletter r = newsletter a) l new.
Proof.
  intros Hl. revert w. induction Hl as [|a l [Hid Hpk] _ IH]; intros w.
  - exists w, []. simpl. by rewrite app_nil_r.
  - destruct (save_new_stored a w) as (a' & w1 & Hsave & _ & _ & _ & _ & _
        & _ & _ & _ & Hus & Hem & _ & Hnone); [done | by rewrite Hpk |].
    destruct (Hnone Hpk) as (Ha' & Hrows & _).
    destruct (IH w1) as (w' & new & Hloop & Hrows' & Hall).
    exists w', (a' :: new). simpl.
    unfold mbind at 1, Exec_bind at 1. unfold mbind at 1, Exec_bind at 1.
    unfold call. simpl. rewrite Hsave. simpl.
    split; [exact Hloop|]. split.
    + rewrite Hrows', Hrows, <- app_assoc. done.
    + constructor; [|done]. split_and!; [done..|].
      rewrite Ha'. unfold transition_new.
      by destruct (subscribed a), (unsubscribed a).
Qed.


(** The confirm view on a confirmation POST, by the outcome of its loop. *)
Lemma import_confirm_eq (valid : list (string * string) → bool)
    request w addresses :
  session request !! "addresses" = Some addresses →
  POST request ≠ [] → valid (POST request) = true →
  let w0 := set_log (log w ++ [LogConfirming addresses]) w in
  let cleared := set_session (delete "addresses" (session request)) request in
  subscribers_import_confirm valid (request, w) =
  match save_addresses addresses (request, w0) with
  | (Return _, (_, w')) =>
      (Return (HttpResponseRedirect "../../"),
       (add_message SUCCESS
          (pretty (length addresses) +:+
           " subscriptions have been successfully added.") cleared, w'))
  | (Raise e, (_, w')) => (Raise e, (cleared, w'))
  end.
Proof.
  intros Hsess Hpost Hvalid. simpl.
  unfold subscribers_import_confirm.
  unfold mbind at 1, Exec_bind at 1, get_self at 1. simpl.
  rewrite Hsess. destruct (POST request) as [|p ps] eqn:HP; [done|].
  rewrite Hvalid.
  unfold mbind at 1, Exec_bind at 1, logger_debug, modify_world. simpl.
  unfold mbind at 1, Exec_bind at 1, try_finally.
  pose proof (save_addresses_request addresses.*2 request
                (set_log (log w ++ [LogConfirming addresses]) w)) as Hreq.
  unfold save_addresses.
  destruct (for_each addresses.*2 _ _) as [[e|[]] [req' w']];
    simpl in Hreq; subst req'.
  all: unfold session_del, mbind, Exec_bind, get_self; simpl; rewrite Hsess;
       reflexivity.
Qed.




(** * Template lookup *)

Lemma select_template_pair {X} (o f : string) (x : X) w :
  select_template [o; f] (x, w) =
  match templates w !! o with
  | Some src => (Return (mkTemplate o src), (x, w))
  | None =>
      match templates w !! f with
      | Some src => (Return (mkTemplate f src), (x, w))
      | None => (Raise (TemplateDoesNotExist [o; f]), (x, w))
      end
  end.
Proof.
  unfold select_template, mbind, Exec_bind, get_world. simpl.
  destruct (templates w !! o); [done|]. by destruct (templates w !! f).
Qed.

Lemma select_template_state {X} names (x : X) w :
  (select_template names (x, w)).2 = (x, w).
Proof.
  unfold select_template, mbind, Exec_bind, get_world. simpl.
  by destruct (find_template (templates w) names).
Qed.

Lemma select_template_found {X} slug action suffix (x : X) w :
  bool_decide (is_Some (templates w !! override_path slug action suffix))
  || bool_decide (is_Some (templates w !! fallback_path action suffix)) = true →
  ∃ t, select_template [override_path slug action suffix;
                        fallback_path action suffix] (x, w) =
         (Return t, (x, w)).
Proof.
  intros Hav. rewrite select_template_pair.
  destruct (templates w !! override_path slug action suffix) as [src|];
    [by eauto|].
  destruct (templates w !! fallback_path action suffix) as [src|] eqn:Hf;
    [by eauto|].
  by vm_compute in Hav.
Qed.

(** What [select_template] returns for the two candidate paths is the
    template the spec's contract names. *)
Lemma select_template_resolves {X} slug action suffix (x : X) w t :
  select_template [override_path slug action suffix;
                   fallback_path action suffix] (x, w) = (Return t, (x, w)) →
  resolves_to (templates w) slug action suffix t.
Proof.
  rewrite select_template_pair. unfold resolves_to.
  destruct (templates w !! override_path slug action suffix) as [src|].
  - by intros [= <-].
  - destruct (templates w !! fallback_path action suffix) as [src|];
      [|done]. intros [= <-]. by exists src.
Qed.

Lemma get_templates_state action nl w :
  (get_templates action (nl, w)).2 = (nl, w).
Proof.
  unfold get_templates. unfold mbind at 1, Exec_bind at 1, get_self at 1. simpl.
  unfold mbind at 1, Exec_bind at 1, assert_.
  destruct (bool_decide _); [|done]. simpl.
  unfold mbind at 1, Exec_bind at 1.
  match goal with |- context [select_template ?ns (nl, w)] =>
    pose proof (select_template_state ns nl w) as H1;
    destruct (select_template ns (nl, w)) as [[e|s] st] end;
    simpl in H1; subst st; [done|].
  unfold mbind at 1, Exec_bind at 1.
  match goal with |- context [select_template ?ns (nl, w)] =>
    pose proof (select_template_state ns nl w) as H2;
    destruct (select_template ns (nl, w)) as [[e|t] st] end;
    simpl in H2; subst st; [done|].
  unfold mbind at 1, Exec_bind at 1.
  destruct (send_html nl); [|done].
  unfold mbind at 1, Exec_bind at 1.
  match goal with |- context [select_template ?ns (nl, w)] =>
    pose proof (select_template_state ns nl w) as H3;
    destruct (select_template ns (nl, w)) as [[e|h] st] end;
    simpl in H3; subst st; done.
Qed.

(** With every needed part in the store, [get_templates] returns what its
    three [select_template] calls return. *)
Lemma get_templates_returns nl w action :
  action ∈ ACTIONS ++ ["message"] →
  templates_available (templates w) nl action = true →
  ∃ subject text html,
    get_templates action (nl, w) = (Return (subject, text, html), (nl, w)) ∧
    select_template [override_path (slug nl) action "_subject.txt";
                     fallback_path action "_subject.txt"] (nl, w) =
      (Return subject, (nl, w)) ∧
    select_template [override_path (slug nl) action ".txt";
                     fallback_path action ".txt"] (nl, w) =
      (Return text, (nl, w)) ∧
    (if send_html nl
     then ∃ h, html = Some h ∧
            select_template [override_path (slug nl) action ".html";
                             fallback_path action ".html"] (nl, w) =
              (Return h, (nl, w))
     else html = None).
Proof.
  intros Hmem Hav.
  unfold templates_available, template_suffixes in Hav. simpl in Hav.
  apply andb_true_iff in Hav as [Hsubj Hav].
  apply andb_true_iff in Hav as [Htext Hhtml].
  destruct (select_template_found (slug nl) action "_subject.txt" nl w Hsubj)
    as (s & Hs).
  destruct (select_template_found (slug nl) action ".txt" nl w Htext)
    as (t & Ht).
  unfold get_templates. unfold mbind at 1, Exec_bind at 1, get_self at 1.
  cbn [fst snd].
  unfold mbind at 1, Exec_bind at 1, assert_.
  rewrite bool_decide_eq_true_2 by exact Hmem.
  unfold mret at 1, Exec_ret at 1.
  fold (override_path (slug nl) action "_subject.txt").
  fold (fallback_path action "_subject.txt").
  fold (override_path (slug nl) action ".txt").
  fold (fallback_path action ".txt").
  fold (override_path (slug nl) action ".html").
  fold (fallback_path action ".html").
  unfold mbind at 1, Exec_bind at 1. rewrite Hs.
  unfold mbind at 1, Exec_bind at 1. rewrite Ht.
  unfold mbind at 1, Exec_bind at 1.
  destruct (send_html nl) eqn:Hhtml_flag.
  - simpl in Hhtml. apply andb_true_iff in Hhtml as [Hhtml _].
    destruct (select_template_found (slug nl) action ".html" nl w Hhtml)
      as (h & Hh).
    unfold mbind at 1, Exec_bind at 1. rewrite Hh.
    exists s, t, (Some h). split_and!; [done..|]. by exists h.
  - by exists s, t, None.
Qed.

(** C9: for an action that [get_templates] accepts, when the store can
    supply each part that the newsletter needs, [get_templates] returns a
    subject, a text and an HTML template; each is the newsletter's own
    template at [newsletter/message/<slug>/<action><suffix>] when the store
    has it and the newsletter-agnostic [newsletter/message/<action><suffix>]
    otherwise; the HTML component is [None] when [send_html] is false. *)
Theorem get_templates_resolution nl w action :
  action ∈ ACTIONS ++ ["message"] →
  templates_available (templates w) nl action = true →
  ∃ subject text html,
    get_templates action (nl, w) = (Return (subject, text, html), (nl, w)) ∧
    resolves_to (templates w) (slug nl) action "_subject.txt" subject ∧
    resolves_to (templates w) (slug nl) action ".txt" text ∧
    (if send_html nl
     then ∃ h, html = Some h ∧
               resolves_to (templates w) (slug nl) action ".html" h
     else html = None).
Proof.
  intros Hmem Hav.
  destruct (get_templates_returns nl w action Hmem Hav)
    as (s & t & h & Heq & Hs & Ht & Hh).
  exists s, t, h. split; [exact Heq|].
  split; [by apply (select_template_resolves _ _ _ nl)|].
  split; [by apply (select_template_resolves _ _ _ nl)|].
  destruct (send_html nl); [|exact Hh].
  destruct Hh as (h' & -> & Hh'). exists h'. split; [done|].
  by apply (select_template_resolves _ _ _ nl).
Qed.

Lemma get_templates_resolution_witness :
  ∃ subject text html,
    get_templates "subscribe" (weekly, world_templates) =
      (Return (subject, text, html), (weekly, world_templates)) ∧
    resolves_to (templates world_templates) "weekly" "subscribe" ".txt" text.
Proof.
  destruct (get_templates_resolution weekly world_templates "subscribe")
    as (s & t & h & Heq & _ & Ht & _).
  - apply (bool_decide_unpack _). reflexivity.
  - reflexivity.
  - exists s, t, h. exact (conj Heq Ht).
Defined.

(** The "weekly" newsletter overrides the text body only: the subject and
    the HTML body come from the newsletter-agnostic templates. *)
Example weekly_subscribe_templates :
  (get_templates "subscribe" (weekly, world_templates)).1 =
  Return (mkTemplate "newsletter/message/subscribe_subject.txt" "Confirm",
          mkTemplate "newsletter/message/weekly/subscribe.txt" "Weekly: confirm.",
          Some (mkTemplate "newsletter/message/subscribe.html"
                  "<p>Please confirm.</p>")).
Proof. reflexivity. Qed.

(** With neither template in the store the lookup raises. *)
Example get_templates_empty_store :
  get_templates "subscribe" (weekly, world0) =
  (Raise (TemplateDoesNotExist
            ["newsletter/message/weekly/subscribe_subject.txt";
             "newsletter/message/subscribe_subject.txt"]),
   (weekly, world0)).
Proof. reflexivity. Qed.


(** * The activation e-mail *)

Lemma Context_unbound {S} (s : S) :
  load_global "Context" s = (Raise (NameError "Context"), s).
Proof. reflexivity. Qed.

Lemma send_activation_email_eq
    (render : Template → RenderContext → string) self w action :
  action ∈ ACTIONS →
  send_activation_email render action (self, w) =
  match get_templates action (newsletter self, w) with
  | (Return _, (_, w')) => (Raise (NameError "Context"), (self, w'))
  | (Raise e, (_, w')) => (Raise e, (self, w'))
  end.
Proof.
  intros Hact. unfold send_activation_email.
  unfold mbind at 1, Exec_bind at 1, assert_.
  rewrite bool_decide_eq_true_2 by done.
  unfold mret at 1, Exec_ret at 1.
  unfold mbind at 1, Exec_bind at 1, get_self at 1.
  unfold mbind at 1, Exec_bind at 1, call. cbn [fst snd].
  destruct (get_templates action (newsletter self, w))
    as [[e|[[subject text] html]] [nl' w']]; reflexivity.
Qed.




(** * What [save] leaves alone *)

(** The rows after [Model.save]: the instance, and the rows under other
    keys. *)
Lemma Model_save_rows self w self' w' x :
  ORM.Model_save (self, w) = (Return (), (self', w')) →
  w' = set_rows (rows w') w ∧
  (x ∈ rows w' ↔ x = self' ∨ (x ∈ rows w ∧ pk x ≠ pk self')).
Proof.
  rewrite Model_save_eq. destruct (pk self) as [k|] eqn:Hpk.
  - intros Heq; injection Heq as <- <-. split; [done|]. simpl. rewrite Hpk.
    case_decide as Hf.
    + rewrite elem_of_app, list_elem_of_singleton. split.
      * intros [Hx | ->]; [right|by left]. split; [done|].
        intros Hk.
        by apply (filter_nil_not_elem_of (λ r, pk r = Some k) _ x Hf Hk).
      * intros [-> | [Hx _]]; [by right|by left].
    + unfold ORM.update_rows. rewrite list_elem_of_fmap. split.
      * intros (r & -> & Hr). case_decide; [by left|right]. done.
      * intros [-> | [Hx Hk]].
        -- destruct (ORM.filter_pk k (rows w)) as [|r0 l] eqn:Hf'; [done|].
           assert (r0 ∈ ORM.filter_pk k (rows w)) as Hin
             by (rewrite Hf'; left).
           apply list_elem_of_filter in Hin as [Hr0 Hin].
           exists r0. by rewrite decide_True.
        -- exists x. by rewrite decide_False.
  - intros Heq; injection Heq as <- <-. split; [done|]. simpl.
    rewrite elem_of_app, list_elem_of_singleton. split.
    + intros [Hx | ->]; [right|by left]. split; [done|].
      intros Hk. pose proof (next_pk_bound (rows w) x _ Hx Hk). lia.
    + intros [-> | [Hx _]]; [by right|by left].
Qed.

Lemma transition_existing_world self old w :
  (transition_existing self old w).2 =
  set_log (log (transition_existing self old w).2) w.
Proof.
  unfold transition_existing.
  destruct (subscribes self old), (unsubscribes self old), w; done.
Qed.

Lemma transition_new_world self w :
  (transition_new self w).2 = set_log (log (transition_new self w).2) w.
Proof.
  unfold transition_new.
  destruct (subscribed self), (unsubscribed self), w; done.
Qed.

(** A [save] that returns went through the base class's [save], from the
    state one of the two transitions left. *)
Lemma save_returns_inv self w self' w' :
  save (self, w) = (Return (), (self', w')) →
  identity_ok self = true ∧
  ∃ st, ORM.Model_save st = (Return (), (self', w')) ∧
    st.2 = set_log (log st.2) w ∧ pk st.1 = pk self ∧
    ((truthy_int (pk self) = false ∧ st = transition_new self w) ∨
     (∃ k old, pk self = Some k ∧ k ≠ 0 ∧
        ORM.filter_pk k (rows w) = [old] ∧
        st = transition_existing self old w)).
Proof.
  intros Hsave.
  destruct (save_cases self w) as [Hn|Hu He|Hid Hpk|k Hid Hpk Hk Hlen|k old Hid Hpk Hk Hf].
  - rewrite save_neither in Hsave by done. discriminate.
  - rewrite save_both in Hsave by done. discriminate.
  - rewrite save_new in Hsave by done. fold (transition_new self w) in Hsave.
    split; [done|]. exists (transition_new self w).
    split_and!; [done | apply transition_new_world
                | apply transition_new_frame | by left].
  - rewrite (save_stale self w k) in Hsave by done. discriminate.
  - rewrite (save_existing self w k old) in Hsave by done.
    fold (transition_existing self old w) in Hsave.
    split; [done|]. exists (transition_existing self old w).
    split_and!; [done | apply transition_existing_world
                | apply transition_existing_frame | right; by exists k, old].
Qed.

(** X1: a [save] that returns writes one key only.  The rows of the table
    afterwards are the saved record and the rows that were stored under
    other keys, unchanged; the clock, the outbox, the template store, the
    site and the settings are as before: saving never sends a message. *)
Theorem save_writes_one_key self w self' w' :
  save (self, w) = (Return (), (self', w')) →
  (∀ x, x ∈ rows w' ↔ x = self' ∨ (x ∈ rows w ∧ pk x ≠ pk self')) ∧
  clock w' = clock w ∧ outbox w' = outbox w ∧
  templates w' = templates w ∧ current_site w' = current_site w ∧
  settings w' = settings w.
Proof.
  intros Hsave.
  destruct (save_returns_inv self w self' w' Hsave)
    as (_ & [s0 w0] & Hms & Hw0 & _ & _). simpl in Hw0.
  split.
  - intros x. destruct (Model_save_rows s0 w0 self' w' x Hms) as [_ Hrows].
    rewrite Hrows, Hw0. done.
  - destruct (Model_save_rows s0 w0 self' w' self' Hms) as [-> _].
    rewrite Hw0. done.
Qed.

Lemma save_writes_one_key_witness :
  outbox (set_rows [set_pk (Some 1) alice] world0) = outbox world0.
Proof.
  apply (save_writes_one_key alice world0 (set_pk (Some 1) alice)
           (set_rows [set_pk (Some 1) alice] world0)).
  reflexivity.
Defined.

Lemma transition_new_exclusive self w : exclusive (transition_new self w).1.
Proof.
  unfold exclusive, transition_new. rewrite _subscribe_eq, _unsubscribe_eq.
  destruct (subscribed self) eqn:Hs, (unsubscribed self) eqn:Hu; simpl;
    intros [? ?]; congruence.
Qed.

Lemma transition_existing_exclusive self old w :
  exclusive old → exclusive (transition_existing self old w).1.
Proof.
  unfold exclusive, transition_existing, subscribes, unsubscribes.
  rewrite _subscribe_eq, _unsubscribe_eq. intros Hold.
  destruct (subscribed self) eqn:Hs, (unsubscribed self) eqn:Hu,
           (subscribed old) eqn:Hos, (unsubscribed old) eqn:Hou; simpl;
    intros [? ?]; try congruence.
  by apply Hold.
Qed.

Lemma Model_save_flags self w self' w' :
  ORM.Model_save (self, w) = (Return (), (self', w')) →
  subscribed self' = subscribed self ∧ unsubscribed self' = unsubscribed self.
Proof.
  intros H. pose proof (Model_save_row self w) as Hrow. simpl in Hrow.
  rewrite H in Hrow. simpl in Hrow. by destruct Hrow as (_ & _ & ? & ? & _).
Qed.

(** X2: the hook keeps the table exclusive.  When no stored row has
    [subscribed] and [unsubscribed] set together, no row has after a [save]
    that returns, whatever flags the saved record asked for. *)
Theorem save_keeps_table_exclusive self w self' w' :
  Forall exclusive (rows w) →
  save (self, w) = (Return (), (self', w')) →
  Forall exclusive (rows w') ∧ exclusive self'.
Proof.
  intros Htbl Hsave.
  destruct (save_returns_inv self w self' w' Hsave)
    as (_ & [s0 w0] & Hms & Hw0 & _ & Hcase). simpl in Hw0.
  assert (exclusive self') as Hself.
  { destruct (Model_save_flags s0 w0 self' w' Hms) as [Hs Hu].
    unfold exclusive. rewrite Hs, Hu.
    destruct Hcase as [[_ Hst]|(k & old & _ & _ & Hf & Hst)].
    - change s0 with (s0, w0).1. rewrite Hst. apply transition_new_exclusive.
    - change s0 with (s0, w0).1. rewrite Hst.
      apply transition_existing_exclusive.
      rewrite Forall_forall in Htbl. apply Htbl.
      assert (old ∈ ORM.filter_pk k (rows w)) as Hin by (rewrite Hf; left).
      by apply list_elem_of_filter in Hin as [_ Hin]. }
  split; [|done]. apply Forall_forall. intros x Hx.
  destruct (Model_save_rows s0 w0 self' w' x Hms) as [_ Hrows].
  apply Hrows in Hx as [-> | [Hx _]]; [done|].
  rewrite Hw0 in Hx. rewrite Forall_forall in Htbl. by apply Htbl.
Qed.

Lemma save_keeps_table_exclusive_witness :
  Forall exclusive (rows (set_rows [set_pk (Some 1) alice] world0)).
Proof.
  apply (save_keeps_table_exclusive alice world0 (set_pk (Some 1) alice)
           (set_rows [set_pk (Some 1) alice] world0)).
  - constructor.
  - reflexivity.
Defined.

Lemma update_rows_id k self tbl :
  ORM.filter_pk k tbl = [self] → ORM.update_rows k self tbl = tbl.
Proof.
  intros Hf. unfold ORM.update_rows.
  rewrite <- (list_fmap_id tbl) at 2. apply list_fmap_ext.
  intros i r Hr. case_decide as Hk; [|done]. simpl.
  assert (r ∈ ORM.filter_pk k tbl) as Hin.
  { apply list_elem_of_filter. split; [done|].
    by apply list_elem_of_lookup_2 in Hr. }
  rewrite Hf in Hin. by apply list_elem_of_singleton in Hin.
Qed.

(** X3: saving is idempotent.  Once a [save] has returned and left the
    record with a key, saving the record again -- at whatever time -- returns
    with the record, the table and the log as they are. *)
Theorem save_again_changes_nothing self w self1 w1 t :
  save (self, w) = (Return (), (self1, w1)) →
  truthy_int (pk self1) = true →
  save (self1, set_clock t w1) = (Return (), (self1, set_clock t w1)).
Proof.
  intros Hsave Hpk.
  destruct (save_post self w self1 w1 Hsave) as [Hid Hfil].
  destruct (pk self1) as [k|] eqn:Hk; [|done]. simpl in Hpk.
  assert (k ≠ 0) as Hk0.
  { intros ->. by rewrite bool_decide_eq_true_2 in Hpk. }
  specialize (Hfil k eq_refl Hk0).
  rewrite (save_existing self1 (set_clock t w1) k self1) by done.
  assert (subscribes self1 self1 = false) as ->.
  { unfold subscribes. by destruct (subscribed self1), (unsubscribed self1). }
  assert (unsubscribes self1 self1 = false) as ->.
  { unfold unsubscribes. by destruct (subscribed self1), (unsubscribed self1). }
  rewrite Model_save_eq, Hk. simpl.
  rewrite decide_False by (rewrite Hfil; done).
  rewrite update_rows_id by done. by destruct w1.
Qed.

Lemma save_again_changes_nothing_witness :
  save (set_pk (Some 1) alice,
        set_clock 2000 (set_rows [set_pk (Some 1) alice] world0)) =
  (Return (), (set_pk (Some 1) alice,
               set_clock 2000 (set_rows [set_pk (Some 1) alice] world0))).
Proof.
  apply (save_again_changes_nothing alice world0); reflexivity.
Defined.

(** * [update] on stored and on new records *)

(** [update] on an existing record, as the transition of the record with
    the flag assigned. *)
Lemma update_subscribe_existing self w k old :
  identity_ok self = true → pk self = Some k → k ≠ 0 →
  ORM.filter_pk k (rows w) = [old] →
  let w0 := set_log (log w ++ [LogUpdated (set_subscribed true self)
                                 "subscribe"]) w in
  let st := transition_existing (set_subscribed true self) old w0 in
  ∃ w', update "subscribe" (self, w) = (Return (), (st.1, w')) ∧
        ORM.filter_pk k (rows w') = [st.1].
Proof.
  intros Hid Hpk Hk Hf. simpl.
  rewrite update_subscribed_eq by (by left).
  destruct (save_existing_stored (set_subscribed true self)
              (set_log (log w ++ [LogUpdated (set_subscribed true self)
                                    "subscribe"]) w) k old)
    as (w' & Hsave & _ & _ & _ & Hfil); [done..|].
  by exists w'.
Qed.

Lemma update_unsubscribe_existing self w k old :
  identity_ok self = true → pk self = Some k → k ≠ 0 →
  ORM.filter_pk k (rows w) = [old] →
  let w0 := set_log (log w ++ [LogUpdated (set_unsubscribed true self)
                                 "unsubscribe"]) w in
  let st := transition_existing (set_unsubscribed true self) old w0 in
  ∃ w', update "unsubscribe" (self, w) = (Return (), (st.1, w')) ∧
        ORM.filter_pk k (rows w') = [st.1].
Proof.
  intros Hid Hpk Hk Hf. simpl.
  rewrite update_unsubscribed_eq.
  destruct (save_existing_stored (set_unsubscribed true self)
              (set_log (log w ++ [LogUpdated (set_unsubscribed true self)
                                    "unsubscribe"]) w) k old)
    as (w' & Hsave & _ & _ & _ & Hfil); [done..|].
  by exists w'.
Qed.








(** * The admin list and its bulk actions *)

Lemma string_app_assoc (s1 s2 s3 : string) :
  (s1 +:+ s2) +:+ s3 = s1 +:+ (s2 +:+ s3).
Proof.
  induction s1 as [|a s1 IH]; [done|].
  change (String a ((s1 +:+ s2) +:+ s3) = String a (s1 +:+ (s2 +:+ s3))).
  by rewrite IH.
Qed.

Lemma img_tag_inj_static (static f1 f2 alt1 alt2 : string) :
  img_tag (static +:+ f1) alt1 = img_tag (static +:+ f2) alt2 →
  f1 +:+ dq +:+ " width=" +:+ dq +:+ "10" +:+ dq +:+
    " height=" +:+ dq +:+ "10" +:+ dq +:+ " alt=" +:+ dq +:+ alt1 +:+ dq +:+ "/>" =
  f2 +:+ dq +:+ " width=" +:+ dq +:+ "10" +:+ dq +:+
    " height=" +:+ dq +:+ "10" +:+ dq +:+ " alt=" +:+ dq +:+ alt2 +:+ dq +:+ "/>".
Proof.
  unfold img_tag. intros H.
  apply (inj (String.app _)) in H. apply (inj (String.app _)) in H.
  rewrite !string_app_assoc in H. by apply (inj (String.app _)) in H.
Qed.

(** X8: the icon and the text of the status column disagree exactly for
    rows with both flags set.  [admin_status] shows the "no" icon with the
    text "Subscribed" if and only if [subscribed] and [unsubscribed] are
    both true: the icon is chosen by [unsubscribed] first, the text by
    [subscribed] first. *)
Theorem admin_status_contradicts_text st obj :
  admin_status st obj =
    img_tag (STATIC_URL st +:+ "admin/img/icon-no.gif") "Subscribed"
  ↔ subscribed obj = true ∧ unsubscribed obj = true.
Proof.
  unfold admin_status, admin_status_text.
  replace (default "" (ICON_URLS st !! "no"))
    with (STATIC_URL st +:+ "admin/img/icon-no.gif") by reflexivity.
  replace (default "" (ICON_URLS st !! "yes"))
    with (STATIC_URL st +:+ "admin/img/icon-yes.gif") by reflexivity.
  replace (default "" (ICON_URLS st !! "wait"))
    with (STATIC_URL st +:+ "newsletter/admin/img/waiting.gif")
    by reflexivity.
  destruct (subscribed obj), (unsubscribed obj); split.
  all: first [ done
             | by intros [? ?]
             | intros H; apply img_tag_inj_static in H; discriminate H ].
Qed.

(** The rows and the message that a bulk action leaves. *)
Lemma bulk_actions_rows (queryset : Subscription → bool)
    (request : HttpRequest) w :
  let n := length (filter (λ row, queryset row = true) (rows w)) in
  let sub := make_subscribed queryset (request, w) in
  let unsub := make_unsubscribed queryset (request, w) in
  sub.1 = Return () ∧ unsub.1 = Return () ∧
  sub.2.2 = set_rows (rows sub.2.2) w ∧
  unsub.2.2 = set_rows (rows unsub.2.2) w ∧
  rows sub.2.2 =
    (λ old, set_subscribed (queryset old || subscribed old) old) <$> rows w ∧
  rows unsub.2.2 =
    (λ old, set_subscribed (negb (queryset old) && subscribed old) old)
      <$> rows w ∧
  sub.2.1 = add_message INFO
    (pretty n +:+ (if bool_decide (n = 1%nat)
                   then " user has been successfully subscribed."
                   else " users have been successfully subscribed."))
    request ∧
  unsub.2.1 = add_message INFO
    (pretty n +:+ (if bool_decide (n = 1%nat)
                   then " user has been successfully unsubscribed."
                   else " users have been successfully unsubscribed."))
    request.
Proof.
  simpl. split_and!; try done.
  - apply list_fmap_ext. intros i old _.
    destruct (queryset old); simpl; [done|]. by destruct old.
  - apply list_fmap_ext. intros i old _.
    destruct (queryset old); simpl; [done|]. by destruct old.
Qed.

(** X7: the bulk actions and the exclusive table.  On a table whose rows
    are exclusive, "Subscribe selected users" leaves the table exclusive
    exactly when no selected row is unsubscribed; "Unsubscribe selected
    users" always does, but marks no row unsubscribed: a selected row is
    listed as "Unsubscribed" afterwards only if it was before, and as
    "Unactivated" otherwise.  Neither action logs or sends anything, and
    the number it reports is the number of selected rows. *)
Theorem bulk_actions_and_exclusive_table (queryset : Subscription → bool)
    (request : HttpRequest) w :
  Forall exclusive (rows w) →
  let n := length (filter (λ row, queryset row = true) (rows w)) in
  let sub := make_subscribed queryset (request, w) in
  let unsub := make_unsubscribed queryset (request, w) in
  (Forall exclusive (rows sub.2.2) ↔
     ∀ r, r ∈ rows w → queryset r = true → unsubscribed r = false) ∧
  Forall exclusive (rows unsub.2.2) ∧
  Forall2 (λ old new,
             queryset old = true →
             admin_status_text new =
               (if unsubscribed old then "Unsubscribed" else "Unactivated") ∧
             unsubscribe_date new = unsubscribe_date old)
          (rows w) (rows unsub.2.2) ∧
  log sub.2.2 = log w ∧ outbox sub.2.2 = outbox w ∧
  log unsub.2.2 = log w ∧ outbox unsub.2.2 = outbox w ∧
  (∃ text, messages sub.2.1 = messages request ++ [(INFO, pretty n +:+ text)]) ∧
  (∃ text, messages unsub.2.1 = messages request ++ [(INFO, pretty n +:+ text)]).
Proof.
  intros Htbl.
  destruct (bulk_actions_rows queryset request w)
    as (_ & _ & Hsw & Huw & Hsr & Hur & Hsm & Hum).
  cbv zeta. rewrite Hsm, Hum, Hsr, Hur. simpl.
  rewrite Forall_forall in Htbl.
  split_and!; try done; try by eauto.
  - rewrite Forall_fmap, Forall_forall. unfold exclusive, compose. split.
    + intros Hex r Hr Hq. specialize (Hex r Hr). simpl in Hex.
      rewrite Hq in Hex. simpl in Hex.
      destruct (unsubscribed r); [|done]. exfalso. by apply Hex.
    + intros Hsel r Hr. simpl. specialize (Htbl r Hr).
      destruct (queryset r) eqn:Hq; simpl.
      * rewrite (Hsel r Hr Hq). by intros [_ ?].
      * exact Htbl.
  - rewrite Forall_fmap, Forall_forall. unfold exclusive, compose.
    intros r Hr. simpl. specialize (Htbl r Hr).
    destruct (queryset r); simpl; [by intros [? _]|exact Htbl].
  - apply Forall2_fmap_r, Forall_Forall2_diag, Forall_forall.
    intros old _. unfold compose. intros Hq. rewrite Hq.
    unfold admin_status_text. simpl. by destruct (unsubscribed old).
Qed.

Lemma bulk_actions_and_exclusive_table_witness :
  Forall exclusive
    (rows (make_unsubscribed all_rows
             (request0, set_rows [dave_subscribed] world0)).2.2).
Proof.
  apply (bulk_actions_and_exclusive_table all_rows request0
           (set_rows [dave_subscribed] world0)).
  repeat constructor. intros [_ H]. discriminate H.
Defined.



(** * The import workflow *)

Lemma import_confirm_no_addresses (valid : list (string * string) → bool)
    request w :
  session request !! "addresses" = None →
  subscribers_import_confirm valid (request, w) =
  (Return (HttpResponseRedirect "../"), (request, w)).
Proof.
  intros Hs. unfold subscribers_import_confirm.
  unfold mbind at 1, Exec_bind at 1, get_self at 1. simpl. by rewrite Hs.
Qed.

Lemma import_confirm_shown (valid : list (string * string) → bool)
    request w addresses :
  session request !! "addresses" = Some addresses →
  negb (bool_decide (POST request = [])) && valid (POST request) = false →
  subscribers_import_confirm valid (request, w) =
  (Return (render_to_response
             "admin/newsletter/subscription/confirmimportform.html"
             (ConfirmForm (match POST request with
                           | [] => None
                           | _ => Some (POST request)
                           end)) addresses),
   (request, set_log (log w ++ [LogConfirming addresses]) w)).
Proof.
  intros Hs Hno. unfold subscribers_import_confirm.
  unfold mbind at 1, Exec_bind at 1, get_self at 1. cbn [fst snd].
  rewrite Hs.
  unfold mbind at 1, Exec_bind at 1, logger_debug, modify_world. cbn [fst snd].
  destruct (POST request) as [|p ps] eqn:HP; [done|].
  simpl in Hno. by rewrite Hno.
Qed.

(** X9: the confirm view writes only on a confirmation.  Unless the
    addresses are in the session, the request carries posted fields and the
    confirmation form is valid, the view returns a response without
    raising, and leaves the table, the session, the messages and the outbox
    as they are: it redirects to the upload step when the session has no
    addresses, and shows the addresses of the session otherwise. *)
Theorem import_confirm_writes_only_on_confirmation
    (valid : list (string * string) → bool) request w :
  confirmation valid request = false →
  let r := subscribers_import_confirm valid (request, w) in
  r.2.1 = request ∧ rows r.2.2 = rows w ∧ outbox r.2.2 = outbox w ∧
  match session request !! "addresses" with
  | None => r.1 = Return (HttpResponseRedirect "../") ∧ r.2.2 = w
  | Some addresses =>
      ∃ form, r.1 = Return (render_to_response
                "admin/newsletter/subscription/confirmimportform.html"
                form addresses) ∧
              form = ConfirmForm (match POST request with
                                  | [] => None
                                  | _ => Some (POST request)
                                  end)
  end.
Proof.
  unfold confirmation. intros Hno. cbv zeta.
  destruct (session request !! "addresses") as [addresses|] eqn:Hs.
  - rewrite bool_decide_eq_true_2 in Hno by eauto.
    rewrite (import_confirm_shown valid request w addresses) by done.
    split_and!; try done. by eexists.
  - rewrite import_confirm_no_addresses by done. done.
Qed.

Lemma import_confirm_writes_only_on_confirmation_witness :
  (subscribers_import_confirm always_valid (request0, world0)).1 =
  Return (HttpResponseRedirect "../").
Proof.
  pose proof (import_confirm_writes_only_on_confirmation always_valid
                request0 world0) as H.
  simpl in H. apply H. reflexivity.
Defined.



Lemma import_upload_valid
    (valid : list (string * string) → list (string * string) → bool)
    (get : list (string * string) → list (string * string) →
           list (string * Subscription))
    FILES request w :
  POST request ≠ [] → valid (POST request) FILES = true →
  subscribers_import valid get FILES (request, w) =
  (Return (inl (HttpResponseRedirect "confirm/")),
   (set_session (<["addresses" := get (POST request) FILES]> (session request))
      request, w)).
Proof.
  intros Hpost Hvalid. unfold subscribers_import.
  unfold mbind at 1, Exec_bind at 1, get_self at 1. cbn [fst snd].
  destruct (POST request) as [|p ps] eqn:HP; [done|]. by rewrite Hvalid.
Qed.

Lemma import_upload_invalid
    (valid : list (string * string) → list (string * string) → bool)
    (get : list (string * string) → list (string * string) →
           list (string * Subscription))
    FILES request w :
  negb (bool_decide (POST request = [])) && valid (POST request) FILES = false →
  subscribers_import valid get FILES (request, w) =
  (Return (inr (render_import "admin/newsletter/subscription/importform.html"
                  (ImportForm_ (match POST request with
                                | [] => None
                                | _ => Some (POST request, FILES)
                                end)))),
   (request, w)).
Proof.
  intros Hno. unfold subscribers_import.
  unfold mbind at 1, Exec_bind at 1, get_self at 1. cbn [fst snd].
  destruct (POST request) as [|p ps] eqn:HP; [done|].
  simpl in Hno. by rewrite Hno.
Qed.

(** X11: the upload view stores addresses only for a valid upload.  A
    request without posted fields, or with an upload the form rejects, gets
    the upload form back and leaves the session as it is -- addresses of an
    earlier upload included; a valid upload puts its addresses under the
    session key, replacing those of an earlier upload, and redirects to the
    confirm step.  The view never raises and never touches the table. *)
Theorem import_upload_stores_only_valid
    (valid : list (string * string) → list (string * string) → bool)
    (get : list (string * string) → list (string * string) →
           list (string * Subscription))
    FILES request w :
  let r := subscribers_import valid get FILES (request, w) in
  let accepted :=
    negb (bool_decide (POST request = [])) && valid (POST request) FILES in
  r.2.2 = w ∧
  (accepted = false →
     r.2.1 = request ∧
     ∃ form, r.1 = Return (inr (render_import
               "admin/newsletter/subscription/importform.html" form))) ∧
  (accepted = true →
     r.1 = Return (inl (HttpResponseRedirect "confirm/")) ∧
     session r.2.1 !! "addresses" = Some (get (POST request) FILES) ∧
     (∀ key, key ≠ "addresses" →
        session r.2.1 !! key = session request !! key) ∧
     messages r.2.1 = messages request).
Proof.
  cbv zeta.
  destruct (negb (bool_decide (POST request = [])) &&
            valid (POST request) FILES) eqn:Hacc.
  - apply andb_true_iff in Hacc as [Hpost Hvalid].
    apply negb_true_iff, bool_decide_eq_false_1 in Hpost.
    rewrite import_upload_valid by done. simpl.
    split_and!; try done. intros _. split_and!; try done.
    + apply lookup_insert_eq.
    + intros key Hkey. by apply lookup_insert_ne.
  - rewrite import_upload_invalid by done. simpl.
    split_and!; try done. intros _. split; [done|]. by eexists.
Qed.

Lemma import_upload_stores_only_valid_witness :
  session (subscribers_import (λ _ _, true)
             (λ _ _, [("alice@example.org", alice)]) []
             (import_request, world0)).2.1 !! "addresses" =
  Some [("alice@example.org", alice)].
Proof.
  pose proof (import_upload_stores_only_valid (λ _ _, true)
                (λ _ _, [("alice@example.org", alice)]) []
                import_request world0) as (_ & _ & Hacc).
  apply Hacc. reflexivity.
Defined.




(** * Template lookup: the failures *)

Lemma select_template_missing {X} (o f : string) (x : X) w :
  bool_decide (is_Some (templates w !! o))
  || bool_decide (is_Some (templates w !! f)) = false →
  select_template [o; f] (x, w) = (Raise (TemplateDoesNotExist [o; f]), (x, w)).
Proof.
  intros Hno. rewrite select_template_pair.
  destruct (templates w !! o) as [src|]; [by vm_compute in Hno|].
  destruct (templates w !! f) as [src|]; [by vm_compute in Hno|]. done.
Qed.

Lemma get_templates_unknown_action nl w action :
  action ∉ ACTIONS ++ ["message"] →
  get_templates action (nl, w) =
  (Raise (AssertionError ("Unknown action: " +:+ action)), (nl, w)).
Proof.
  intros Hno. unfold get_templates.
  unfold mbind at 1, Exec_bind at 1, get_self at 1. cbn [fst snd].
  unfold mbind at 1, Exec_bind at 1, assert_.
  by rewrite bool_decide_eq_false_2.
Qed.

Lemma get_templates_missing nl w action :
  action ∈ ACTIONS ++ ["message"] →
  templates_available (templates w) nl action = false →
  ∃ names, get_templates action (nl, w) =
             (Raise (TemplateDoesNotExist names), (nl, w)).
Proof.
  intros Hmem Hav.
  unfold templates_available, template_suffixes in Hav. simpl in Hav.
  unfold get_templates. unfold mbind at 1, Exec_bind at 1, get_self at 1.
  cbn [fst snd].
  unfold mbind at 1, Exec_bind at 1, assert_.
  rewrite bool_decide_eq_true_2 by exact Hmem.
  unfold mret at 1, Exec_ret at 1.
  fold (override_path (slug nl) action "_subject.txt").
  fold (fallback_path action "_subject.txt").
  fold (override_path (slug nl) action ".txt").
  fold (fallback_path action ".txt").
  fold (override_path (slug nl) action ".html").
  fold (fallback_path action ".html").
  unfold mbind at 1, Exec_bind at 1.
  destruct (bool_decide (is_Some (templates w !! override_path (slug nl) action "_subject.txt"))
            || bool_decide (is_Some (templates w !! fallback_path action "_subject.txt")))
    eqn:Hsubj.
  2: { rewrite select_template_missing by done. by eexists. }
  destruct (select_template_found (slug nl) action "_subject.txt" nl w Hsubj)
    as (s & ->).
  unfold mbind at 1, Exec_bind at 1.
  destruct (bool_decide (is_Some (templates w !! override_path (slug nl) action ".txt"))
            || bool_decide (is_Some (templates w !! fallback_path action ".txt")))
    eqn:Htext.
  2: { rewrite select_template_missing by done. by eexists. }
  destruct (select_template_found (slug nl) action ".txt" nl w Htext)
    as (t & ->).
  unfold mbind at 1, Exec_bind at 1.
  destruct (send_html nl); [|done]. simpl in Hav.
  rewrite andb_true_r in Hav.
  unfold mbind at 1, Exec_bind at 1.
  rewrite select_template_missing by done. by eexists.
Qed.

(** X13: when [get_templates] fails.  An action outside [ACTIONS] and
    "message" fails the assertion before any template is looked up.  For an
    action it accepts, [get_templates] raises [TemplateDoesNotExist]
    exactly when, for the subject, the text or -- only if the newsletter
    sends HTML -- the HTML body, the store has neither the newsletter's
    template nor the newsletter-agnostic one; it returns otherwise, and in
    no case changes the newsletter or the world. *)
Theorem get_templates_failures nl w action :
  (get_templates action (nl, w)).2 = (nl, w) ∧
  (action ∉ ACTIONS ++ ["message"] →
     (get_templates action (nl, w)).1 =
       Raise (AssertionError ("Unknown action: " +:+ action))) ∧
  (action ∈ ACTIONS ++ ["message"] →
     ((∃ names, (get_templates action (nl, w)).1 =
                  Raise (TemplateDoesNotExist names)) ↔
        templates_available (templates w) nl action = false) ∧
     ((∃ tpls, (get_templates action (nl, w)).1 = Return tpls) ↔
        templates_available (templates w) nl action = true)).
Proof.
  split; [apply get_templates_state|]. split.
  - intros Hno. by rewrite get_templates_unknown_action.
  - intros Hmem.
    destruct (templates_available (templates w) nl action) eqn:Hav.
    + destruct (get_templates_returns nl w action Hmem Hav)
        as (s & t & h & -> & _). simpl. split; split; try done.
      * by intros [names ?].
      * by eauto.
    + destruct (get_templates_missing nl w action Hmem Hav) as [names ->].
      simpl. split; split; try done.
      * by eauto.
      * by intros [tpls ?].
Qed.

Lemma get_templates_failures_witness :
  ∃ names, (get_templates "subscribe" (weekly, world0)).1 =
             Raise (TemplateDoesNotExist names).
Proof.
  destruct (get_templates_failures weekly world0 "subscribe")
    as (_ & _ & Hacc).
  destruct Hacc as [Hraise _].
  - apply (bool_decide_unpack _). reflexivity.
  - apply Hraise. reflexivity.
Defined.

(** * The [name] and [email] properties *)

(** X14: assigning the e-mail or the name.  On a subscription linked to a
    user both assignments are ignored, and the getters answer from the
    user.  On a standalone subscription the getters return what was
    assigned; assigning a missing or empty e-mail makes the next [save]
    fail its first assertion, with nothing written, and assigning a
    non-empty one keeps the identity invariant. *)
Theorem email_assignment_and_save self w email name :
  (∀ u, user self = Some u →
     set_email email self = self ∧ set_name name self = self ∧
     get_email self = Some (user_email u) ∧
     get_name self = Some (full_name u)) ∧
  (user self = None →
     get_email (set_email email self) = email ∧
     get_name (set_name name self) = name ∧
     get_email (set_name name self) = get_email self ∧
     (truthy_str email = true → identity_ok (set_email email self) = true) ∧
     (truthy_str email = false →
        save (set_email email self, w) =
          (Raise (AssertionError msg_neither), (set_email email self, w)))).
Proof.
  split.
  - intros u Hu. unfold set_email, set_name, get_email, get_name.
    by rewrite Hu.
  - intros Hu. unfold set_email, set_name, get_email, get_name.
    rewrite Hu. simpl. rewrite Hu. split_and!; try done.
    + intros He. unfold identity_ok. simpl. by rewrite Hu, He.
    + intros He. apply save_neither. simpl. by rewrite Hu, He.
Qed.

Lemma email_assignment_and_save_witness :
  save (set_email (Some "") alice, world0) =
  (Raise (AssertionError msg_neither), (set_email (Some "") alice, world0)).
Proof.
  destruct (email_assignment_and_save alice world0 (Some "") None)
    as [_ Hstandalone].
  destruct Hstandalone as (_ & _ & _ & _ & Hfail); [reflexivity|].
  apply Hfail. reflexivity.
Defined.

(** * Reading back what [save] stored *)

Lemma Model_save_length self w self' w' :
  ORM.Model_save (self, w) = (Return (), (self', w')) →
  length (rows w') =
  (length (rows w) +
   match pk self with
   | Some k => if decide (ORM.filter_pk k (rows w) = []) then 1 else 0
   | None => 1
   end)%nat.
Proof.
  rewrite Model_save_eq. destruct (pk self) as [k|].
  - intros Heq; injection Heq as <- <-. simpl. case_decide.
    + by rewrite length_app.
    + unfold ORM.update_rows. rewrite length_fmap. lia.
  - intros Heq; injection Heq as <- <-. simpl. by rewrite length_app.
Qed.

(** X15: a saved record can be read back.  After a [save] that returned
    and left the record with a key, the table holds exactly one row under
    that key and [Subscription.objects.get] returns the record as saved; the
    table has one row more than before when the record was new, and as many
    rows as before when it existed. *)
Theorem save_then_get self w self' w' :
  save (self, w) = (Return (), (self', w')) →
  truthy_int (pk self') = true →
  ∃ k, pk self' = Some k ∧
    (∀ (x : Subscription),
       ORM.count k (x, w') = (Return 1%nat, (x, w')) ∧
       ORM.get k (x, w') = (Return self', (x, w'))) ∧
    length (rows w') =
      (length (rows w) + (if truthy_int (pk self) then 0 else 1))%nat.
Proof.
  intros Hsave Hpk'.
  destruct (save_post self w self' w' Hsave) as [_ Hfil].
  destruct (pk self') as [k|] eqn:Hk; [|done]. simpl in Hpk'.
  assert (k ≠ 0) as Hk0.
  { intros ->. by rewrite bool_decide_eq_true_2 in Hpk'. }
  specialize (Hfil k eq_refl Hk0).
  exists k. split; [done|]. split.
  - intros x. unfold ORM.count, ORM.get, mbind, Exec_bind, get_world, mret,
      Exec_ret. simpl. by rewrite Hfil.
  - destruct (save_returns_inv self w self' w' Hsave)
      as (_ & [s0 w0] & Hms & Hw0 & Hpk0 & Hcase). simpl in Hw0, Hpk0.
    rewrite (Model_save_length s0 w0 self' w' Hms), Hpk0, Hw0. simpl.
    destruct Hcase as [[Hnew _]|(k' & old & Hpk & Hk' & Hf & _)].
    + rewrite Hnew. destruct (pk self) as [j|] eqn:Hj; [|done].
      exfalso. pose proof (Model_save_row s0 w0) as Hrow. simpl in Hrow.
      rewrite Hms in Hrow. simpl in Hrow.
      destruct Hrow as (_ & _ & _ & _ & _ & _ & _ & _ & _ & _ & _ & Hsome & _).
      destruct (Hsome j) as [Heq _]; [congruence|]. subst s0.
      rewrite Hk in Hpk0. injection Hpk0 as ->.
      simpl in Hnew. by rewrite bool_decide_eq_false_2 in Hnew.
    + rewrite Hpk. simpl. rewrite bool_decide_eq_false_2 by done. simpl.
      rewrite Hf. by rewrite decide_False.
Qed.

Lemma save_then_get_witness :
  ∃ k, pk (set_pk (Some 1) alice) = Some k ∧
       length (rows (set_rows [set_pk (Some 1) alice] world0)) = 1%nat.
Proof.
  destruct (save_then_get alice world0 (set_pk (Some 1) alice)
              (set_rows [set_pk (Some 1) alice] world0))
    as (k & Hk & _ & Hlen); [reflexivity | reflexivity |].
  exists k. exact (conj Hk Hlen).
Defined.
